(** * Reservation engine of the hotel-booking backend

    A shallow embedding of the booking routes ([src/routes/bookingRoutes.ts]
    and its compiled sibling [dist/routes/bookingRoutes.js]), of the room-code
    generator of the room routes and of [EncryptionService]
    ([src/utils/encryption.ts]), with the properties of the reservation
    specification stated over it.

    Conventions.
    - A [Date] is the number of milliseconds since the epoch, a [Z]
      (what [getTime()] returns).
    - The Prisma tables are lists of rows; a query is a function of the
      database, a write returns the new database or the error Prisma throws.
    - A route handler returns the HTTP response it sends and the database
      it leaves behind.
    - A JavaScript [number] is the rational its double denotes; products
      are rounded as IEEE-754 binary64 rounds them.
    - What the code takes from a library ([crypto], the paged
      [findMany] of Prisma) is a class of operations with a class of laws;
      each is run on a small instance that satisfies the laws. *)

From Stdlib Require Import ZArith List String Ascii Bool Lia QArith.
From Stdlib Require Import Strings.Byte DecimalString Qround Qpower Qabs Lqa.
From Stdlib Require Import Permutation Orders Mergesort.
Import ListNotations.

Local Open Scope string_scope.
Local Open Scope list_scope.
Local Open Scope Z_scope.

(* ===================================================================== *)
(** * Data model ([prisma/schema.prisma]) *)
(* ===================================================================== *)

Inductive BookingStatus : Type :=
| PENDING | CONFIRMED | CHECKED_IN | CHECKED_OUT | CANCELLED | REJECTED.

Inductive PaymentStatus : Type :=
| PaymentPENDING | PAID | REFUNDED | FAILED.

Inductive RoomStatus : Type :=
| AVAILABLE | OCCUPIED | MAINTENANCE | RESERVED.

Inductive RoomType : Type :=
| STANDARD | DELUXE | SUITE | PRESIDENTIAL.

Inductive Gender : Type := MALE | FEMALE | OTHER.

Definition BookingStatus_eqb (a b : BookingStatus) : bool :=
  match a, b with
  | PENDING, PENDING | CONFIRMED, CONFIRMED | CHECKED_IN, CHECKED_IN
  | CHECKED_OUT, CHECKED_OUT | CANCELLED, CANCELLED | REJECTED, REJECTED => true
  | _, _ => false
  end.

(** Identifiers are the uuid strings of the schema. *)
Definition Id := string.

Record FamilyMember : Type := mkFamilyMember {
  member_name : string;
  member_age : Z;
  member_gender : Gender;
  member_relationship : string
}.

(** [model Hotel]: the owner and the managers relation. *)
Record Hotel : Type := mkHotel {
  hotel_id : Id;
  hotel_name : string;
  hotelCode : string;
  ownerId : Id;
  managers : list Id
}.

(** [model Room]; [price] is a [Float] in the schema: the rational its
    double denotes. *)
Record Room : Type := mkRoom {
  room_id : Id;
  roomNumber : string;
  roomCode : string;
  room_type : RoomType;
  price : Q;
  capacity : Z;
  amenities : list string;
  images : list string;
  room_status : RoomStatus;
  room_hotelId : Id
}.

(** [model Booking]. *)
Record Booking : Type := mkBooking {
  booking_id : Id;
  userId : Id;
  hotelId : Id;
  roomId : Id;
  checkIn : Z;
  checkOut : Z;
  status : BookingStatus;
  totalAmount : Q;
  paymentStatus : PaymentStatus;
  members : list FamilyMember;
  documents : option string
}.

(** The database: one list of rows per table; users by their id. *)
Record Db : Type := mkDb {
  users : list Id;
  hotels : list Hotel;
  rooms : list Room;
  bookings : list Booking
}.

(** What a handler sends: [res.status(code).json(body)] with a row, or
    [res.status(code).json({ error })]. *)
Inductive Response (A : Type) : Type :=
| Json (code : Z) (body : A)
| Error (code : Z) (error : string).
Arguments Json {A} code body.
Arguments Error {A} code error.

(* ===================================================================== *)
(** * Prisma queries used by the booking routes *)
(* ===================================================================== *)

Definition booking_findFirst (where_ : Booking -> bool) (db : Db) : option Booking :=
  find where_ (bookings db).

Definition booking_findUnique (id : Id) (db : Db) : option Booking :=
  find (fun b => String.eqb (booking_id b) id) (bookings db).

Definition room_findUnique (id : Id) (db : Db) : option Room :=
  find (fun r => String.eqb (room_id r) id) (rooms db).

Definition hotel_findUnique (id : Id) (db : Db) : option Hotel :=
  find (fun h => String.eqb (hotel_id h) id) (hotels db).

Definition user_exists (id : Id) (db : Db) : bool :=
  existsb (String.eqb id) (users db).

(** [prisma.booking.create] with [connect] on user, hotel and room: the
    insert throws when one of the connected records does not exist. *)
Definition booking_create (row : Booking) (db : Db) : option Db :=
  if user_exists (userId row) db then
    match hotel_findUnique (hotelId row) db, room_findUnique (roomId row) db with
    | Some _, Some _ =>
        Some (mkDb (users db) (hotels db) (rooms db) (bookings db ++ [row]))
    | _, _ => None
    end
  else None.

(** [prisma.booking.update({ where: { id }, data: { status } })]. *)
Definition set_status (s : BookingStatus) (b : Booking) : Booking :=
  mkBooking (booking_id b) (userId b) (hotelId b) (roomId b) (checkIn b)
            (checkOut b) s (totalAmount b) (paymentStatus b) (members b)
            (documents b).

Definition booking_update_status (id : Id) (s : BookingStatus) (db : Db) : Db :=
  mkDb (users db) (hotels db) (rooms db)
       (map (fun b => if String.eqb (booking_id b) id then set_status s b else b)
            (bookings db)).

(* ===================================================================== *)
(** * JavaScript numbers ([Float] columns, [Math.random()])

    A [number] is an IEEE-754 binary64 value; the finite ones are the
    rationals [m * 2^e] with [|m| < 2^53] and [-1074 <= e <= 971], so a
    finite number is modelled as the rational it denotes.  The product of
    two numbers is the exact product rounded to the nearest such rational,
    ties to even ([round64]).  A product beyond the largest double is
    [Infinity] in JavaScript; the model keeps the rounded rational there,
    the statements below never reach that range. *)
(* ===================================================================== *)

(** [2^z], also for negative [z]. *)
Definition pow2 (z : Z) : Q := Qpower 2 z.

(** The binary exponent of [x > 0]: [2^e <= x < 2^(e+1)]. *)
Definition ilog2 (x : Q) : Z :=
  let e := Z.log2 (Qnum x) - Z.log2 (Zpos (Qden x)) in
  if Qle_bool (pow2 e) x then e else e - 1.

(** Nearest integer, ties to the even one. *)
Definition round_half_even (y : Q) : Z :=
  let f := Qfloor y in
  match Qcompare (y - inject_Z f) (1 # 2) with
  | Lt => f
  | Gt => f + 1
  | Eq => if Z.even f then f else f + 1
  end.

(** Rounding of [x > 0] to 53 significant bits; below [2^-1022] the
    spacing stays [2^-1074] (subnormals). *)
Definition round64_pos (x : Q) : Q :=
  let e := Z.max (ilog2 x) (-1022) in
  let ulp := pow2 (e - 52) in
  Qred (inject_Z (round_half_even (x / ulp)) * ulp).

Definition round64 (x : Q) : Q :=
  match Qcompare x 0 with
  | Eq => 0
  | Gt => round64_pos x
  | Lt => Qopp (round64_pos (Qopp x))
  end.

Definition max_double : Q := (inject_Z (2 ^ 53 - 1)) * pow2 971.

(** The rationals that are finite doubles. *)
Definition is_double (x : Q) : bool :=
  Qeq_bool (round64 x) x && Qle_bool (Qabs x) max_double.

(** [x * y] of JavaScript.  Columns, draws and day counts hold doubles;
    on other rationals, which no program value denotes, the product is left
    exact. *)
Definition js_mul (x y : Q) : Q :=
  if is_double x && is_double y then round64 (x * y) else x * y.

(* ===================================================================== *)
(** * POST /api/bookings *)
(* ===================================================================== *)

(** The parsed body ([createBookingSchema]); [checkIn] and [checkOut]
    after [new Date(...)]. *)
Record CreateBookingBody : Type := mkBody {
  body_hotelId : Id;
  body_roomId : Id;
  body_checkIn : Z;
  body_checkOut : Z;
  body_members : list FamilyMember;
  body_documents : option string
}.

Definition status_in (l : list BookingStatus) (s : BookingStatus) : bool :=
  existsb (BookingStatus_eqb s) l.

(** The [OR] of the two [AND] blocks of the availability query. *)
Definition dates_clash (checkIn_ checkOut_ : Z) (b : Booking) : bool :=
  ((checkIn b <=? checkIn_) && (checkOut b >=? checkIn_))
  || ((checkIn b <=? checkOut_) && (checkOut b >=? checkOut_)).

(** The [where] of the availability query of the TypeScript source. *)
Definition availabilityWhere (roomId_ : Id) (checkIn_ checkOut_ : Z) (b : Booking) : bool :=
  String.eqb (roomId b) roomId_
  && status_in [CONFIRMED; PENDING] (status b)
  && dates_clash checkIn_ checkOut_ b.

(** The same [where] in the compiled [dist/routes/bookingRoutes.js]. *)
Definition availabilityWhere_dist (roomId_ : Id) (checkIn_ checkOut_ : Z) (b : Booking) : bool :=
  String.eqb (roomId b) roomId_
  && status_in [CONFIRMED; CHECKED_IN] (status b)
  && dates_clash checkIn_ checkOut_ b.

(** [Math.ceil(a / b)] on integers [a] and [b > 0]. *)
Definition ceil_div (a b : Z) : Z := - ((- a) / b).

Definition MS_PER_DAY : Z := 1000 * 60 * 60 * 24.

Definition days_between (checkIn_ checkOut_ : Z) : Z :=
  ceil_div (checkOut_ - checkIn_) MS_PER_DAY.

Definition room_not_available : Response Booking :=
  Error 400 "Room not available for selected dates".
Definition room_not_found : Response Booking := Error 404 "Room not found".
Definition failed_to_create : Response Booking :=
  Error 400 "Failed to create booking".

(** The row handed to [prisma.booking.create]; [newId] is the uuid the
    database gives the row. *)
Definition new_booking (newId user : Id) (body : CreateBookingBody) (room : Room) : Booking :=
  let days := days_between (body_checkIn body) (body_checkOut body) in
  let totalAmount_ := js_mul (price room) (inject_Z days) in
  mkBooking newId user (body_hotelId body) (body_roomId body)
            (body_checkIn body) (body_checkOut body)
            PENDING totalAmount_ PaymentPENDING
            (body_members body) (body_documents body).

(** [z.string().uuid()] as zod 3 checks it: eight, four, four, four and
    twelve hexadecimal digits of either case, separated by hyphens. *)
Definition is_hex_digit (c : ascii) : bool :=
  existsb (Ascii.eqb c) (list_ascii_of_string "0123456789abcdefABCDEF").

Fixpoint hex_run (n : nat) (s : string) : option string :=
  match n with
  | O => Some s
  | S n' =>
      match s with
      | String c r => if is_hex_digit c then hex_run n' r else None
      | EmptyString => None
      end
  end.

Definition hyphen (s : string) : option string :=
  match s with
  | String c r => if Ascii.eqb c "-"%char then Some r else None
  | EmptyString => None
  end.

Definition and_then {A B : Type} (o : option A) (f : A -> option B) : option B :=
  match o with
  | Some a => f a
  | None => None
  end.

Definition is_uuid (s : string) : bool :=
  match and_then (hex_run 8 s) (fun s1 =>
        and_then (hyphen s1) (fun s2 =>
        and_then (hex_run 4 s2) (fun s3 =>
        and_then (hyphen s3) (fun s4 =>
        and_then (hex_run 4 s4) (fun s5 =>
        and_then (hyphen s5) (fun s6 =>
        and_then (hex_run 4 s6) (fun s7 =>
        and_then (hyphen s7) (fun s8 =>
        hex_run 12 s8)))))))) with
  | Some EmptyString => true
  | _ => false
  end.

(** The refinements of [createBookingSchema] on a body of the right
    types: [hotelId] and [roomId] are uuids and every member has
    [age >= 0]; a body that fails one makes [parse] throw. *)
Definition createBookingSchema_ok (body : CreateBookingBody) : bool :=
  is_uuid (body_hotelId body)
  && is_uuid (body_roomId body)
  && forallb (fun m => 0 <=? member_age m) (body_members body).

(** The handler of [router.post("/")], for the authenticated [user]. *)
Definition createBooking (db : Db) (user newId : Id) (body : CreateBookingBody)
  : Response Booking * Db :=
  if negb (createBookingSchema_ok body) then (failed_to_create, db) else
  match booking_findFirst
          (availabilityWhere (body_roomId body) (body_checkIn body) (body_checkOut body))
          db with
  | Some _ => (room_not_available, db)
  | None =>
      match room_findUnique (body_roomId body) db with
      | None => (room_not_found, db)
      | Some room =>
          let row := new_booking newId user body room in
          match booking_create row db with
          | Some db' => (Json 201 row, db')
          | None => (failed_to_create, db)
          end
      end
  end.

(** ** The handler as the event loop runs it

    The handler suspends at each [await]; the store call it waits for is
    executed by the database as one step, and other requests may run
    between two steps of the same request. *)
Inductive BookingTask : Type :=
| AtFindFirst (user newId : Id) (body : CreateBookingBody)
| AtFindRoom (user newId : Id) (body : CreateBookingBody)
| AtCreate (user newId : Id) (body : CreateBookingBody) (room : Room)
| Sent (r : Response Booking).

(** The synchronous prefix of the handler, up to the first [await]. *)
Definition spawn (user newId : Id) (body : CreateBookingBody) : BookingTask :=
  if negb (createBookingSchema_ok body) then Sent failed_to_create
  else AtFindFirst user newId body.

(** One store call of a suspended handler, and the code up to its next
    [await] or response. *)
Definition task_step (t : BookingTask) (db : Db) : BookingTask * Db :=
  match t with
  | AtFindFirst user newId body =>
      match booking_findFirst
              (availabilityWhere (body_roomId body) (body_checkIn body) (body_checkOut body))
              db with
      | Some _ => (Sent room_not_available, db)
      | None => (AtFindRoom user newId body, db)
      end
  | AtFindRoom user newId body =>
      match room_findUnique (body_roomId body) db with
      | None => (Sent room_not_found, db)
      | Some room => (AtCreate user newId body room, db)
      end
  | AtCreate user newId body room =>
      let row := new_booking newId user body room in
      match booking_create row db with
      | Some db' => (Sent (Json 201 row), db')
      | None => (Sent failed_to_create, db)
      end
  | Sent r => (Sent r, db)
  end.

(** The requests in flight and the database they share. *)
Definition System : Type := (list BookingTask * Db)%type.

Fixpoint step_nth (i : nat) (ts : list BookingTask) (db : Db) : list BookingTask * Db :=
  match ts, i with
  | [], _ => ([], db)
  | t :: ts', O => let (t', db') := task_step t db in (t' :: ts', db')
  | t :: ts', S i' => let (ts'', db') := step_nth i' ts' db in (t :: ts'', db')
  end.

(** A schedule names, store call after store call, the request whose call
    the database executes next. *)
Fixpoint run_schedule (sched : list nat) (sys : System) : System :=
  match sched with
  | [] => sys
  | i :: sched' => run_schedule sched' (step_nth i (fst sys) (snd sys))
  end.

(** Requests served one after another, each to its response before the
    next one starts. *)
Fixpoint serve_all (calls : list (Id * Id * CreateBookingBody)) (db : Db)
  : list (Response Booking) * Db :=
  match calls with
  | [] => ([], db)
  | (user, newId, body) :: calls' =>
      let (r, db') := createBooking db user newId body in
      let (rs, db'') := serve_all calls' db' in
      (r :: rs, db'')
  end.

Definition is_created (r : Response Booking) : bool :=
  match r with
  | Json 201 _ => true
  | _ => false
  end.

(* ===================================================================== *)
(** * PUT /api/bookings/:id/status *)
(* ===================================================================== *)

Definition booking_not_found : Response Booking := Error 404 "Booking not found".
Definition not_authorized : Response Booking := Error 403 "Not authorized".
Definition failed_to_update : Response Booking :=
  Error 500 "Failed to update booking status".

(** The handler of [router.put("/:id/status")] for the authenticated
    [user]; a booking whose hotel row is missing makes [booking.hotel.ownerId]
    throw, which the [catch] turns into the 500. *)
Definition updateBookingStatus (db : Db) (user id : Id) (status_ : BookingStatus)
  : Response Booking * Db :=
  match booking_findUnique id db with
  | None => (booking_not_found, db)
  | Some booking =>
      match hotel_findUnique (hotelId booking) db with
      | None => (failed_to_update, db)
      | Some hotel =>
          if negb (String.eqb (ownerId hotel) user) then (not_authorized, db)
          else (Json 200 (set_status status_ booking),
                booking_update_status id status_ db)
      end
  end.

(** The transition table of the specification, for comparison with the
    handler. *)
Definition transition_allowed (from to : BookingStatus) : bool :=
  match from, to with
  | PENDING, CONFIRMED | PENDING, REJECTED | PENDING, CANCELLED
  | CONFIRMED, CHECKED_IN | CONFIRMED, CANCELLED
  | CHECKED_IN, CHECKED_OUT => true
  | _, _ => false
  end.

(** The half-open overlap rule of the specification, for comparison with
    [dates_clash]. *)
Definition spec_overlap (aIn aOut bIn bOut : Z) : bool :=
  (aIn <? bOut) && (bIn <? aOut).

(* ===================================================================== *)
(** * Dates of the worked examples *)
(* ===================================================================== *)

(** Days from 1970-01-01 to the civil date [y-m-d] (proleptic Gregorian). *)
Definition days_from_civil (y m d : Z) : Z :=
  let y' := if m <=? 2 then y - 1 else y in
  let era := y' / 400 in
  let yoe := y' - era * 400 in
  let mp := if m <=? 2 then m + 9 else m - 3 in
  let doy := (153 * mp + 2) / 5 + d - 1 in
  let doe := yoe * 365 + yoe / 4 - yoe / 100 + doy in
  era * 146097 + doe - 719468.

(** [new Date("y-m-dThh:mm:00Z").getTime()]. *)
Definition Date_UTC (y m d hh mm : Z) : Z :=
  ((days_from_civil y m d * 24 + hh) * 60 + mm) * 60 * 1000.

(* ===================================================================== *)
(** * [crypto.createHash('sha256')] (FIPS 180-4) *)
(* ===================================================================== *)

Module SHA256.

(** 32-bit words are [Z] in [0, 2^32). *)
Definition w32 (x : Z) : Z := Z.land x 0xffffffff.
Definition add32 (x y : Z) : Z := w32 (x + y).
Definition rotr (n x : Z) : Z :=
  Z.lor (Z.shiftr x n) (w32 (Z.shiftl x (32 - n))).
Definition shr (n x : Z) : Z := Z.shiftr x n.
Definition not32 (x : Z) : Z := Z.lxor x 0xffffffff.

Definition Ch (x y z : Z) : Z := Z.lxor (Z.land x y) (Z.land (not32 x) z).
Definition Maj (x y z : Z) : Z :=
  Z.lxor (Z.lxor (Z.land x y) (Z.land x z)) (Z.land y z).
Definition Sigma0 (x : Z) : Z := Z.lxor (Z.lxor (rotr 2 x) (rotr 13 x)) (rotr 22 x).
Definition Sigma1 (x : Z) : Z := Z.lxor (Z.lxor (rotr 6 x) (rotr 11 x)) (rotr 25 x).
Definition sigma0 (x : Z) : Z := Z.lxor (Z.lxor (rotr 7 x) (rotr 18 x)) (shr 3 x).
Definition sigma1 (x : Z) : Z := Z.lxor (Z.lxor (rotr 17 x) (rotr 19 x)) (shr 10 x).

(** The constants are defined as FIPS 180-4 defines them: [K] holds the
    first 32 bits of the fractional parts of the cube roots of the first 64
    primes, [H0] those of the square roots of the first 8. *)
Definition is_prime (p : Z) : bool :=
  forallb (fun d => negb (p mod Z.of_nat d =? 0)) (seq 2 (Z.to_nat p - 2)).

Definition first_primes (n : nat) : list Z :=
  firstn n (filter is_prime (map Z.of_nat (seq 2 400))).

(** Integer cube root, one bit at a time from bit [n - 1] down. *)
Fixpoint icbrt_bits (n : nat) (x r : Z) : Z :=
  match n with
  | O => r
  | S n' =>
      let r' := r + 2 ^ Z.of_nat n' in
      if r' * r' * r' <=? x then icbrt_bits n' x r' else icbrt_bits n' x r
  end.

Definition frac_cbrt32 (p : Z) : Z := w32 (icbrt_bits 40 (p * 2 ^ 96) 0).
Definition frac_sqrt32 (p : Z) : Z := w32 (Z.sqrt (p * 2 ^ 64)).

Definition K : list Z := Eval vm_compute in map frac_cbrt32 (first_primes 64).

(** The eight working registers. *)
Record Regs : Type := mkRegs {
  ra : Z; rb : Z; rc : Z; rd : Z; re : Z; rf : Z; rg : Z; rh : Z
}.

Definition H0 : Regs :=
  match map frac_sqrt32 (first_primes 8) with
  | [a; b; c; d; e; f; g; h] => mkRegs a b c d e f g h
  | _ => mkRegs 0 0 0 0 0 0 0 0
  end.

(** Padding: the bit 1, zeros up to 56 mod 64, the bit length on 64
    bits. *)
Definition be_bytes (n : nat) (x : Z) : list Z :=
  map (fun i => Z.land (Z.shiftr x (8 * Z.of_nat i)) 0xff) (rev (seq 0 n)).

Definition pad (msg : list Z) : list Z :=
  let len := Z.of_nat (List.length msg) in
  let zeros := Z.to_nat ((55 - len) mod 64) in
  msg ++ [0x80] ++ repeat 0 zeros ++ be_bytes 8 (8 * len).

Fixpoint words_of_bytes (bs : list Z) : list Z :=
  match bs with
  | b0 :: b1 :: b2 :: b3 :: rest =>
      (Z.lor (Z.shiftl b0 24) (Z.lor (Z.shiftl b1 16) (Z.lor (Z.shiftl b2 8) b3)))
        :: words_of_bytes rest
  | _ => []
  end.

(** The message schedule, newest word first: [ws] holds W(t-1), W(t-2),
    ... *)
Fixpoint extend (n : nat) (ws : list Z) : list Z :=
  match n with
  | O => ws
  | S n' =>
      let w := add32 (add32 (sigma1 (nth 1 ws 0)) (nth 6 ws 0))
                     (add32 (sigma0 (nth 14 ws 0)) (nth 15 ws 0)) in
      extend n' (w :: ws)
  end.

Definition schedule (block : list Z) : list Z := rev (extend 48 (rev block)).

Definition round (r : Regs) (kw : Z * Z) : Regs :=
  let (k, w) := kw in
  let T1 := add32 (add32 (add32 (rh r) (Sigma1 (re r)))
                         (add32 (Ch (re r) (rf r) (rg r)) k)) w in
  let T2 := add32 (Sigma0 (ra r)) (Maj (ra r) (rb r) (rc r)) in
  mkRegs (add32 T1 T2) (ra r) (rb r) (rc r) (add32 (rd r) T1) (re r) (rf r) (rg r).

Definition compress (h : Regs) (block : list Z) : Regs :=
  let r := fold_left round (combine K (schedule block)) h in
  mkRegs (add32 (ra h) (ra r)) (add32 (rb h) (rb r)) (add32 (rc h) (rc r))
         (add32 (rd h) (rd r)) (add32 (re h) (re r)) (add32 (rf h) (rf r))
         (add32 (rg h) (rg r)) (add32 (rh h) (rh r)).

Fixpoint blocks (n : nat) (ws : list Z) (h : Regs) : Regs :=
  match n with
  | O => h
  | S n' => blocks n' (skipn 16 ws) (compress h (firstn 16 ws))
  end.

(** The 32 bytes of the digest. *)
Definition digest (msg : list Z) : list Z :=
  let ws := words_of_bytes (pad msg) in
  let h := blocks (Nat.div (List.length ws) 16) ws H0 in
  flat_map (be_bytes 4)
           [ra h; rb h; rc h; rd h; re h; rf h; rg h; rh h].

End SHA256.

(** [Buffer.toString('hex')] / [digest('hex')]: two lower-case digits a
    byte. *)
Definition hex_digit (n : Z) : ascii :=
  if n <? 10 then ascii_of_N (Z.to_N (48 + n)) else ascii_of_N (Z.to_N (87 + n)).

Fixpoint hex_of_bytes (bs : list Z) : string :=
  match bs with
  | [] => EmptyString
  | b :: bs' =>
      String (hex_digit (Z.shiftr b 4)) (String (hex_digit (Z.land b 15)) (hex_of_bytes bs'))
  end.

(** The bytes [hash.update(str)] feeds for a string of ASCII characters. *)
Fixpoint bytes_of_string (s : string) : list Z :=
  match s with
  | EmptyString => []
  | String c s' => Z.of_N (N_of_ascii c) :: bytes_of_string s'
  end.

Definition sha256_hex (s : string) : string :=
  hex_of_bytes (SHA256.digest (bytes_of_string s)).

(** [n.toString()] for an integer [n]. *)
Definition Number_toString (n : Z) : string :=
  NilZero.string_of_int (Z.to_int n).

(* ===================================================================== *)
(** * POST /api/rooms *)
(* ===================================================================== *)

Record CreateRoomBody : Type := mkRoomBody {
  rbody_hotelId : Id;
  rbody_roomNumber : string;
  rbody_type : RoomType;
  rbody_price : Q;
  rbody_capacity : Z;
  rbody_amenities : list string;
  rbody_images : option (list string)
}.

(** The refinements of [createRoomSchema] on a body of the right types:
    [hotelId] is a uuid, the price is positive and the capacity at least 1. *)
Definition createRoomSchema_ok (body : CreateRoomBody) : bool :=
  is_uuid (rbody_hotelId body)
  && negb (Qle_bool (rbody_price body) 0) && (1 <=? rbody_capacity body).

(** [generateRoomCode], as a function of what [Date.now()] returns. *)
Definition generateRoomCode (now : Z) : string :=
  let counter := Number_toString now in
  let hash := sha256_hex counter in
  substring 0 6 hash.

(** [prisma.room.create]: [roomCode] is [@unique], the pair
    [(hotelId, roomNumber)] is unique, and the hotel is connected. *)
Definition room_create (row : Room) (db : Db) : option Db :=
  match hotel_findUnique (room_hotelId row) db with
  | None => None
  | Some _ =>
      if existsb (fun r => String.eqb (roomCode r) (roomCode row)) (rooms db) then None
      else if existsb (fun r => String.eqb (room_hotelId r) (room_hotelId row)
                                && String.eqb (roomNumber r) (roomNumber row))
                      (rooms db) then None
      else Some (mkDb (users db) (hotels db) (rooms db ++ [row]) (bookings db))
  end.

Definition failed_to_create_room : Response Room := Error 400 "Failed to create room".

Definition new_room (newId : Id) (roomCode_ : string) (body : CreateRoomBody) : Room :=
  mkRoom newId (rbody_roomNumber body) roomCode_ (rbody_type body)
         (rbody_price body) (rbody_capacity body) (rbody_amenities body)
         (match rbody_images body with Some l => l | None => [] end)
         AVAILABLE (rbody_hotelId body).

(** The handler of [router.post("/")] of the room routes; [now] is the
    clock reading [generateRoomCode] takes. *)
Definition createRoom (db : Db) (now : Z) (newId : Id) (body : CreateRoomBody)
  : Response Room * Db :=
  if negb (createRoomSchema_ok body) then (failed_to_create_room, db) else
  let roomCode_ := generateRoomCode now in
  let row := new_room newId roomCode_ body in
  match room_create row db with
  | Some db' => (Json 201 row, db')
  | None => (failed_to_create_room, db)
  end.

(* ===================================================================== *)
(** * [EncryptionService] ([src/utils/encryption.ts]) *)
(* ===================================================================== *)

Definition Buffer : Type := list byte.

(** [buf.subarray(start, end)]: both ends are clamped to the buffer. *)
Definition subarray (start end_ : nat) (buf : Buffer) : Buffer :=
  firstn (end_ - start) (skipn start buf).

(** [buf.subarray(start)]. *)
Definition subarray_from (start : nat) (buf : Buffer) : Buffer := skipn start buf.

Definition hex_of_buffer (buf : Buffer) : string :=
  hex_of_bytes (map (fun b => Z.of_N (Byte.to_N b)) buf).

(** The part of Node's [crypto] module the service calls.
    - [pbkdf2Sync password salt iterations keylen digest];
    - [cipher alg key iv authTagLength data]: [createCipheriv], then
      [update(data)] followed by [final()], and [getAuthTag()];
    - [decipher alg key iv authTagLength tag data]: [createDecipheriv],
      [setAuthTag(tag)], then [update(data)] followed by [final()];
      [None] when [final()] throws because the tag does not verify. *)
Class NodeCrypto : Type := {
  pbkdf2Sync : string -> Buffer -> Z -> nat -> string -> Buffer;
  cipher : string -> Buffer -> Buffer -> nat -> Buffer -> Buffer * Buffer;
  decipher : string -> Buffer -> Buffer -> nat -> Buffer -> Buffer -> option Buffer
}.

(** [crypto.randomBytes]: the generator is a stream of bytes and a
    cursor; [randomBytes n] reads the next [n] bytes. *)
Record Rng : Type := mkRng { entropy : nat -> byte; cursor : nat }.

Definition randomBytes (n : nat) (g : Rng) : Buffer * Rng :=
  (map (fun i => entropy g (cursor g + i)%nat) (seq 0 n),
   mkRng (entropy g) (cursor g + n)%nat).

Module EncryptionService.

Definition algorithm : string := "aes-256-gcm".
Definition keyLength : nat := 32.
Definition ivLength : nat := 16.
Definition saltLength : nat := 64.
Definition tagLength : nat := 16.

Record Encrypted : Type := mkEncrypted {
  encryptedData : Buffer;
  encryptionKey : string
}.

Section WithCrypto.
Context {C : NodeCrypto}.

Definition generateKey (password : string) (salt : Buffer) : Buffer :=
  pbkdf2Sync password salt 100000 keyLength "sha512".

Definition encrypt (g : Rng) (data : Buffer) : Encrypted * Rng :=
  let (salt, g1) := randomBytes saltLength g in
  let (iv, g2) := randomBytes ivLength g1 in
  let (pw, g3) := randomBytes 32 g2 in
  let password := hex_of_buffer pw in
  let key := generateKey password salt in
  let (encrypted, tag) := cipher algorithm key iv tagLength data in
  (mkEncrypted (salt ++ iv ++ tag ++ encrypted) password, g3).

Definition decrypt (encryptedData_ : Buffer) (password : string) : option Buffer :=
  let salt := subarray 0 saltLength encryptedData_ in
  let iv := subarray saltLength (saltLength + ivLength) encryptedData_ in
  let tag := subarray (saltLength + ivLength)
                      (saltLength + ivLength + tagLength) encryptedData_ in
  let encrypted := subarray_from (saltLength + ivLength + tagLength) encryptedData_ in
  let key := generateKey password salt in
  decipher algorithm key iv tagLength tag encrypted.

End WithCrypto.

End EncryptionService.

(** What the service relies on from [crypto]: the derived key and the tag
    have the lengths asked for, and a decipher given the key, the iv and
    the tag of a cipher returns the data that was encrypted. *)
Class NodeCryptoLaws (C : NodeCrypto) : Prop := {
  pbkdf2Sync_length :
    forall password salt iterations keylen dg,
      List.length (pbkdf2Sync password salt iterations keylen dg) = keylen;
  getAuthTag_length :
    forall alg key iv n data,
      List.length (snd (cipher alg key iv n data)) = n;
  decipher_cipher :
    forall key iv data,
      List.length key = 32%nat ->
      decipher "aes-256-gcm" key iv 16
               (snd (cipher "aes-256-gcm" key iv 16 data))
               (fst (cipher "aes-256-gcm" key iv 16 data)) = Some data
}.

(** A small stand-in for [crypto], to run the service on: the key is the
    salt cut or padded to length, the ciphertext is the data reversed, and
    the tag is cut from key and iv. *)
Module ToyCrypto.

Definition derive (password : string) (salt : Buffer) (iterations : Z)
           (keylen : nat) (dg : string) : Buffer :=
  firstn keylen (salt ++ repeat x00 keylen).

Definition tag_of (key iv : Buffer) (n : nat) : Buffer :=
  firstn n (key ++ iv ++ repeat x00 n).

Fixpoint buffer_eqb (a b : Buffer) : bool :=
  match a, b with
  | [], [] => true
  | x :: a', y :: b' => Byte.eqb x y && buffer_eqb a' b'
  | _, _ => false
  end.

Definition seal (alg : string) (key iv : Buffer) (n : nat) (data : Buffer)
  : Buffer * Buffer :=
  (rev data, tag_of key iv n).

Definition open (alg : string) (key iv : Buffer) (n : nat) (tag ct : Buffer)
  : option Buffer :=
  if buffer_eqb tag (tag_of key iv n) then Some (rev ct) else None.

Definition toy : NodeCrypto :=
  {| pbkdf2Sync := derive; cipher := seal; decipher := open |}.

Definition rng0 : Rng :=
  mkRng (fun i => match Byte.of_nat (i mod 256) with
                  | Some b => b
                  | None => x00
                  end) 0.

End ToyCrypto.

(** ** Tampering with a stored blob *)

(** Bit [i] of a byte flipped ([b ^ (1 << i)]), for [i < 8]. *)
Definition flip_in_byte (i : nat) (b : byte) : byte :=
  match Byte.of_N (N.lxor (Byte.to_N b) (2 ^ N.of_nat i)) with
  | Some c => c
  | None => b
  end.

(** Bit [i] of a buffer flipped, bit [8 * k + j] being bit [j] of byte
    [k]; a buffer shorter than that is left as it is. *)
Fixpoint flip_bit (i : nat) (buf : Buffer) : Buffer :=
  match buf with
  | [] => []
  | b :: rest =>
      if (i <? 8)%nat then flip_in_byte i b :: rest
      else b :: flip_bit (i - 8) rest
  end.



(** A stand-in for [crypto] that detects single flipped bits: the key
    holds the parity of the salt, the data is left in clear, and the tag
    holds the parities of key, iv and data. *)
Module ParityCrypto.

Definition parity_byte (b : byte) : bool :=
  let '(b0, (b1, (b2, (b3, (b4, (b5, (b6, b7))))))) := Byte.to_bits b in
  xorb b0 (xorb b1 (xorb b2 (xorb b3 (xorb b4 (xorb b5 (xorb b6 b7)))))).

Definition parity (buf : Buffer) : bool :=
  fold_right (fun b p => xorb (parity_byte b) p) false buf.

Definition byte_of_bool (p : bool) : byte := if p then x01 else x00.

Definition derive (password : string) (salt : Buffer) (iterations : Z)
           (keylen : nat) (dg : string) : Buffer :=
  firstn keylen (byte_of_bool (parity salt) :: repeat x00 keylen).

Definition tag_of (key iv data : Buffer) (n : nat) : Buffer :=
  firstn n (byte_of_bool (parity key) :: byte_of_bool (parity iv)
            :: byte_of_bool (parity data) :: repeat x00 n).

Definition seal (alg : string) (key iv : Buffer) (n : nat) (data : Buffer)
  : Buffer * Buffer :=
  (data, tag_of key iv data n).

Definition open (alg : string) (key iv : Buffer) (n : nat) (tag ct : Buffer)
  : option Buffer :=
  if ToyCrypto.buffer_eqb tag (tag_of key iv ct n) then Some ct else None.

Definition parity_crypto : NodeCrypto :=
  {| pbkdf2Sync := derive; cipher := seal; decipher := open |}.

End ParityCrypto.

(* ===================================================================== *)
(** * Sample data (after [prisma/seed.ts]) *)
(* ===================================================================== *)

Module Sample.

Definition owner : Id := "owner-1".
Definition manager : Id := "manager-1".
Definition guest : Id := "guest-1".

(** The ids the routes validate are uuids. *)
Definition hotel1 : Id := "5e8f2b1a-3c4d-4e6f-8a9b-0c1d2e3f4a5b".
Definition room1 : Id := "a1b2c3d4-e5f6-4a7b-8c9d-0e1f2a3b4c5d".
Definition no_such_room : Id := "ffffffff-ffff-4fff-8fff-ffffffffffff".


Definition grand_hotel : Hotel :=
  mkHotel hotel1 "Grand Hotel" "NYC1" owner [manager].

Definition room101 : Room :=
  mkRoom room1 "101" "0f3a9c" STANDARD (100 # 1) 2 [] [] AVAILABLE hotel1.

Definition booking_of (id : Id) (checkIn_ checkOut_ : Z) (s : BookingStatus) : Booking :=
  mkBooking id guest hotel1 room1 checkIn_ checkOut_ s (0 # 1)
            PaymentPENDING [] None.

Definition db_with (bs : list Booking) : Db :=
  mkDb [owner; manager; guest] [grand_hotel] [room101] bs.

Definition request (checkIn_ checkOut_ : Z) : CreateBookingBody :=
  mkBody hotel1 room1 checkIn_ checkOut_ [] None.

Definition room_request (number : string) : CreateRoomBody :=
  mkRoomBody hotel1 number DELUXE (200 # 1) 2 [] None.

(** The stay of the pricing example. *)
Definition feb1 : Z := Date_UTC 2025 2 1 14 0.
Definition feb5 : Z := Date_UTC 2025 2 5 12 0.

End Sample.

(* ===================================================================== *)
(** * The other routes of the booking and room routers *)
(* ===================================================================== *)

(** [router.get("/user")]: the bookings of the authenticated user, each
    with its hotel and its room ([include]). *)
Definition getUserBookings (db : Db) (user : Id)
  : Response (list (Booking * option Hotel * option Room)) * Db :=
  (Json 200
        (map (fun b => (b, hotel_findUnique (hotelId b) db, room_findUnique (roomId b) db))
             (filter (fun b => String.eqb (userId b) user) (bookings db))),
   db).

(** [router.get("/hotel/:hotelId")] of the room routes: the rooms of the
    hotel, each with the dates and status of its bookings. *)
Definition getRoomsByHotel (db : Db) (hotelId_ : Id)
  : Response (list (Room * list (Z * Z * BookingStatus))) * Db :=
  (Json 200
        (map (fun r =>
                (r, map (fun b => (checkIn b, checkOut b, status b))
                        (filter (fun b => String.eqb (roomId b) (room_id r)) (bookings db))))
             (filter (fun r => String.eqb (room_hotelId r) hotelId_) (rooms db))),
   db).

(** The body of [router.put("/:id")] of the room routes, both fields
    optional. *)
Record UpdateRoomBody : Type := mkUpdateRoomBody {
  ubody_type : option RoomType;
  ubody_price : option Q
}.

(** [updateRoomSchema]: the type is one of STANDARD, DELUXE, SUITE and the
    price is positive, when present. *)
Definition updateRoomSchema_ok (body : UpdateRoomBody) : bool :=
  match ubody_type body with
  | Some PRESIDENTIAL => false
  | _ => true
  end
  && match ubody_price body with
     | Some p => negb (Qle_bool p 0)
     | None => true
     end.

(** The [data] of the update: a field is written when it is present and
    truthy ([validatedData.price && { price }]). *)
Definition apply_room_update (body : UpdateRoomBody) (r : Room) : Room :=
  mkRoom (room_id r) (roomNumber r) (roomCode r)
         (match ubody_type body with Some t => t | None => room_type r end)
         (match ubody_price body with
          | Some p => if Qeq_bool p 0 then price r else p
          | None => price r
          end)
         (capacity r) (amenities r) (images r) (room_status r) (room_hotelId r).

Definition room_update (id : Id) (body : UpdateRoomBody) (db : Db) : Db :=
  mkDb (users db) (hotels db)
       (map (fun r => if String.eqb (room_id r) id then apply_room_update body r else r)
            (rooms db))
       (bookings db).

Definition room_not_authorized : Response Room := Error 403 "Not authorized".
Definition failed_to_update_room : Response Room := Error 500 "Failed to update room".

(** The handler of [router.put("/:id")] of the room routes. A body that
    fails the schema, or a room whose hotel row is missing, ends in the
    [catch]. *)
Definition updateRoom (db : Db) (user id : Id) (body : UpdateRoomBody)
  : Response Room * Db :=
  if negb (updateRoomSchema_ok body) then (failed_to_update_room, db) else
  match room_findUnique id db with
  | None => (room_not_authorized, db)
  | Some room =>
      match hotel_findUnique (room_hotelId room) db with
      | None => (failed_to_update_room, db)
      | Some hotel =>
          if negb (String.eqb (ownerId hotel) user) then (room_not_authorized, db)
          else (Json 200 (apply_room_update body room), room_update id body db)
      end
  end.

(* ===================================================================== *)
(** * The hotel routes ([src/routes/hotelRoutes.ts]) *)
(* ===================================================================== *)

(** [str.charAt(i)]: the empty string outside the string. *)
Definition charAt (i : Z) (s : string) : string :=
  if i <? 0 then EmptyString
  else match String.get (Z.to_nat i) s with
       | Some c => String c EmptyString
       | None => EmptyString
       end.

Definition hotel_code_chars : string := "abcdefghijklmnopqrstuvwxyz0123456789".

(** [generateUniqueHotelCode]; [r0 .. r3] are the four values
    [Math.random()] returns, and the product with the length is the
    product of JavaScript numbers, rounded to a double before
    [Math.floor]. *)
Definition generateUniqueHotelCode (r0 r1 r2 r3 : Q) : string :=
  let pick (r : Q) :=
    charAt (Qfloor (js_mul r (inject_Z (Z.of_nat (String.length hotel_code_chars)))))
           hotel_code_chars in
  fold_left (fun code r => String.append code (pick r)) [r0; r1; r2; r3] EmptyString.

(** The parsed body of [createHotelSchema]; the optional [rules] object
    is stored as it comes and read by no route, and is left out. *)
Record CreateHotelBody : Type := mkHotelBody {
  hbody_name : string;
  hbody_location : string;
  hbody_description : string;
  hbody_images : option (list string)
}.

(** [prisma.hotel.create] with [connect] on the owner; [hotelCode] is
    [@unique]. The row keeps the columns of [Hotel] above: location,
    description, images and rules are written through and never read. *)
Definition hotel_create (row : Hotel) (db : Db) : option Db :=
  if user_exists (ownerId row) db then
    if existsb (fun h => String.eqb (hotelCode h) (hotelCode row)) (hotels db) then None
    else Some (mkDb (users db) (hotels db ++ [row]) (rooms db) (bookings db))
  else None.

Definition failed_to_create_hotel : Response Hotel := Error 400 "Failed to create hotel".

(** The handler of [router.post("/")] of the hotel routes. *)
Definition createHotel (db : Db) (user newId : Id) (r0 r1 r2 r3 : Q) (body : CreateHotelBody)
  : Response Hotel * Db :=
  let hotelCode_ := generateUniqueHotelCode r0 r1 r2 r3 in
  let row := mkHotel newId (hbody_name body) hotelCode_ user [] in
  match hotel_create row db with
  | Some db' => (Json 201 row, db')
  | None => (failed_to_create_hotel, db)
  end.

(** [Number(q) || d] for a query parameter that is absent or not a number
    ([None]) or an integer. *)
Definition Number_or (q : option Z) (d : Z) : Z :=
  match q with
  | Some n => if n =? 0 then d else n
  | None => d
  end.

(** [prisma.hotel.findMany({ skip, take })].  The query names no
    [orderBy]: the order the rows are paged in is the store's (Prisma pages
    by primary key), and so is the answer to a [take] that is negative or
    beyond the store's integers.  The store is therefore a parameter:
    [hotel_order] is the order it pages a table in, [hotel_findMany] the
    query, [None] when Prisma throws. *)
Class HotelStore : Type := {
  hotel_order : list Hotel -> list Hotel;
  hotel_findMany : Z -> Z -> Db -> option (list Hotel)
}.

(** What the handler relies on from the store: the paging order holds each
    row of the table once, a negative [skip] is refused, and for [skip] and
    [take] from 0 to [2^31 - 1] the query returns the [take] rows after the
    first [skip] in that order. *)
Class HotelStoreLaws (St : HotelStore) : Prop := {
  hotel_order_permutation :
    forall l, Permutation (hotel_order l) l;
  findMany_negative_skip :
    forall skip take db, skip < 0 -> hotel_findMany skip take db = None;
  findMany_page :
    forall skip take db,
      0 <= skip < 2 ^ 31 -> 0 <= take < 2 ^ 31 ->
      hotel_findMany skip take db
      = Some (firstn (Z.to_nat take) (skipn (Z.to_nat skip) (hotel_order (hotels db))))
}.

(** A store that pages by [id], to run the handler on. *)
Module HotelById <: TotalLeBool.

Definition t : Type := Hotel.

Definition leb (a b : Hotel) : bool := String.leb (hotel_id a) (hotel_id b).

Definition leb_total (a b : Hotel) : leb a b = true \/ leb b a = true :=
  String.leb_total (hotel_id a) (hotel_id b).

End HotelById.

Module HotelSort := Sort HotelById.

Definition store_by_id : HotelStore :=
  {| hotel_order := HotelSort.sort;
     hotel_findMany := fun skip take db =>
       if (skip <? 0) || (take <? 0) then None
       else Some (firstn (Z.to_nat take)
                         (skipn (Z.to_nat skip) (HotelSort.sort (hotels db)))) |}.

Record Pagination : Type := mkPagination {
  pg_total : Z;
  pg_pages : Z;
  pg_currentPage : Z;
  pg_perPage : Z
}.

(** The handler of [router.get("/")] of the hotel routes. *)
Definition getHotels {St : HotelStore} (db : Db) (page_q limit_q : option Z)
  : Response (list Hotel * Pagination) :=
  let page := Number_or page_q 1 in
  let limit := Number_or limit_q 10 in
  let skip := (page - 1) * limit in
  match hotel_findMany skip limit db with
  | None => Error 500 "Failed to fetch hotels"
  | Some hs =>
      let total := Z.of_nat (List.length (hotels db)) in
      Json 200 (hs, mkPagination total (ceil_div total limit) page limit)
  end.

(* ===================================================================== *)
(** * [StorageService] and the upload middleware *)
(* ===================================================================== *)

Definition ALLOWED_FILE_TYPES : list string :=
  ["image/jpeg"; "image/png"; "image/jpg"; "application/pdf"].

Definition MAX_FILE_SIZE : Z := 5 * 1024 * 1024.

(** [Express.Multer.File], the fields the service reads. *)
Record MulterFile : Type := mkFile {
  mimetype : string;
  size : Z;
  buffer : Buffer
}.

(** The bucket: objects by key; a put replaces the object of the key. *)
Record R2Object : Type := mkObject { Body : Buffer; ContentType : string }.

Definition Bucket : Type := list (string * R2Object).

Definition bucket_get (key : string) (b : Bucket) : option R2Object :=
  option_map snd (find (fun kv => String.eqb (fst kv) key) b).

Definition bucket_delete (key : string) (b : Bucket) : Bucket :=
  filter (fun kv => negb (String.eqb (fst kv) key)) b.

Definition bucket_put (key : string) (o : R2Object) (b : Bucket) : Bucket :=
  (key, o) :: bucket_delete key b.

(** A value or the message of the [Error] thrown. *)
Inductive Result (A : Type) : Type :=
| Returned (a : A)
| Thrown (message : string).
Arguments Returned {A} a.
Arguments Thrown {A} message.

Definition includes (s : string) (l : list string) : bool :=
  existsb (String.eqb s) l.

(** [fileFilter] of [uploadMiddleware.ts]: what it passes to [cb]. *)
Definition fileFilter (file : MulterFile) : Result bool :=
  if negb (includes (mimetype file) ALLOWED_FILE_TYPES) then Thrown "Invalid file type"
  else Returned true.

Module StorageService.

(** [generateKey]; [now] is what [Date.now()] returns. *)
Definition generateKey (prefix : string) (now : Z) (g : Rng) : string * Rng :=
  let timestamp := now in
  let (random, g') := randomBytes 8 g in
  (String.append prefix
     (String.append "/"
        (String.append (Number_toString timestamp)
           (String.append "-" (hex_of_buffer random)))),
   g').

(** [uploadFile]; the [PutObjectCommand] is taken to reach the bucket. *)
Definition uploadFile (file : MulterFile) (prefix : string) (now : Z) (g : Rng) (b : Bucket)
  : Result string * Rng * Bucket :=
  if negb (includes (mimetype file) ALLOWED_FILE_TYPES) then
    (Thrown "Invalid file type", g, b)
  else if size file >? MAX_FILE_SIZE then
    (Thrown "File size exceeds limit", g, b)
  else
    let (key, g') := generateKey prefix now g in
    (Returned key, g', bucket_put key (mkObject (buffer file) (mimetype file)) b).

Definition deleteFile (key : string) (b : Bucket) : Bucket := bucket_delete key b.

End StorageService.

(* ===================================================================== *)
(** * Predicates used in the statements *)
(* ===================================================================== *)

(** What the schema and the room handlers maintain on the room table:
    codes are pairwise distinct, so are the pairs of hotel and room number,
    and prices are positive. *)
Definition rooms_consistent (db : Db) : Prop :=
  NoDup (map roomCode (rooms db))
  /\ NoDup (map (fun r => (room_hotelId r, roomNumber r)) (rooms db))
  /\ Forall (fun r => (0 < price r)%Q) (rooms db).

Definition hotel_codes_distinct (db : Db) : Prop :=
  NoDup (map hotelCode (hotels db)).

(** The hotels of a page of [getHotels]. *)
Definition page_items (r : Response (list Hotel * Pagination)) : list Hotel :=
  match r with
  | Json _ (hs, _) => hs
  | Error _ _ => []
  end.

Definition is_hex_char (c : ascii) : bool :=
  existsb (Ascii.eqb c) (list_ascii_of_string "0123456789abcdef").

Definition is_room_created (r : Response Room) : bool :=
  match r with
  | Json 201 _ => true
  | _ => false
  end.

(** Reading two hexadecimal digits back as a byte, to state that the
    hexadecimal form loses nothing. *)
Definition hex_value (c : ascii) : N :=
  let n := N_of_ascii c in
  if (n <? 58)%N then (n - 48)%N else (n - 87)%N.

Definition byte_of_hex_pair (c1 c2 : ascii) : option byte :=
  Byte.of_N (16 * hex_value c1 + hex_value c2)%N.

Fixpoint buffer_of_hex (s : string) : option Buffer :=
  match s with
  | EmptyString => Some []
  | String c1 (String c2 s') =>
      match byte_of_hex_pair c1 c2, buffer_of_hex s' with
      | Some b, Some bs => Some (b :: bs)
      | _, _ => None
      end
  | String _ EmptyString => None
  end.

(** The requests in flight that have not sent their response yet. *)
Definition unfinished (ts : list BookingTask) : nat :=
  List.length (filter (fun t => match t with Sent _ => false | _ => true end) ts).

(** What one store call of one request may do to the database. *)
Definition grows_by (db db' : Db) (added : list Booking) : Prop :=
  users db' = users db /\ hotels db' = hotels db /\ rooms db' = rooms db
  /\ bookings db' = bookings db ++ added
  /\ Forall (fun b => status b = PENDING /\ paymentStatus b = PaymentPENDING) added.

(* ===================================================================== *)
(** * Properties *)
(* ===================================================================== *)

(** ** Rounding to a double *)

Lemma pow2_pos z : (0 < pow2 z)%Q.
Proof. unfold pow2. apply Qpower_0_lt. reflexivity. Qed.

Lemma pow2_add a b : (pow2 (a + b) == pow2 a * pow2 b)%Q.
Proof. unfold pow2. apply Qpower_plus. discriminate. Qed.

Lemma pow2_le a b : a <= b -> (pow2 a <= pow2 b)%Q.
Proof. intros H. unfold pow2. apply Qpower_le_compat_l; [exact H | discriminate]. Qed.

Lemma pow2_lt a b : a < b -> (pow2 a < pow2 b)%Q.
Proof. intros H. unfold pow2. apply Qpower_lt_compat_l; [exact H | reflexivity]. Qed.

Lemma pow2_Z n : 0 <= n -> (pow2 n == inject_Z (2 ^ n))%Q.
Proof. intros H. unfold pow2. symmetry. apply (Zpower_Qpower 2 n H). Qed.

Lemma Q_num_den (x : Q) : (x * inject_Z (Zpos (Qden x)) == inject_Z (Qnum x))%Q.
Proof. destruct x as [n d]. unfold Qeq, Qmult, inject_Z. simpl. lia. Qed.

Lemma ilog2_spec (x : Q) :
  (0 < x)%Q -> (pow2 (ilog2 x) <= x)%Q /\ (x < pow2 (ilog2 x + 1))%Q.
Proof.
  intros Hx.
  assert (Hn : 0 < Qnum x) by (destruct x; unfold Qlt in Hx; simpl in *; lia).
  set (ln := Z.log2 (Qnum x)). set (ld := Z.log2 (Zpos (Qden x))).
  pose proof (Z.log2_spec (Qnum x) Hn) as [Hn1 Hn2]. fold ln in Hn1, Hn2.
  pose proof (Z.log2_spec (Zpos (Qden x)) ltac:(lia)) as [Hd1 Hd2]. fold ld in Hd1, Hd2.
  assert (Hln : 0 <= ln) by apply Z.log2_nonneg.
  assert (Hld : 0 <= ld) by apply Z.log2_nonneg.
  pose proof (Q_num_den x) as Hxd.
  assert (A : (x < pow2 (ln - ld + 1))%Q).
  { apply (Qmult_lt_r _ _ (pow2 ld) (pow2_pos ld)).
    rewrite <- pow2_add. replace (ln - ld + 1 + ld) with (ln + 1) by lia.
    apply Qle_lt_trans with (x * inject_Z (Zpos (Qden x)))%Q.
    - apply Qmult_le_l; [exact Hx|]. rewrite pow2_Z by lia. rewrite <- Zle_Qle. exact Hd1.
    - rewrite Hxd, pow2_Z by lia. rewrite <- Zlt_Qlt. replace (ln + 1) with (Z.succ ln) by lia.
      exact Hn2. }
  assert (B : (pow2 (ln - ld - 1) <= x)%Q).
  { apply (Qmult_le_r _ _ (pow2 (ld + 1)) (pow2_pos (ld + 1))).
    rewrite <- pow2_add. replace (ln - ld - 1 + (ld + 1)) with ln by lia.
    apply Qle_trans with (x * inject_Z (Zpos (Qden x)))%Q.
    - rewrite Hxd, pow2_Z by lia. rewrite <- Zle_Qle. exact Hn1.
    - apply Qmult_le_l; [exact Hx|]. rewrite pow2_Z by lia. rewrite <- Zle_Qle.
      replace (ld + 1) with (Z.succ ld) by lia. lia. }
  unfold ilog2. fold ln ld.
  destruct (Qle_bool (pow2 (ln - ld)) x) eqn:E.
  - apply Qle_bool_iff in E. split; assumption.
  - split; [exact B|]. replace (ln - ld - 1 + 1) with (ln - ld) by lia.
    apply Qnot_le_lt. intros H. apply Qle_bool_iff in H. congruence.
Qed.

Lemma ilog2_mono (p x : Q) : (0 < p)%Q -> (p <= x)%Q -> ilog2 p <= ilog2 x.
Proof.
  intros Hp Hpx.
  assert (Hx : (0 < x)%Q) by (eapply Qlt_le_trans; eassumption).
  destruct (ilog2_spec p Hp) as [P1 P2]. destruct (ilog2_spec x Hx) as [X1 X2].
  apply Z.le_ngt. intros Hlt.
  assert (H : (pow2 (ilog2 x + 1) <= pow2 (ilog2 p))%Q) by (apply pow2_le; lia).
  assert (x < x)%Q.
  { eapply Qlt_le_trans; [exact X2|]. eapply Qle_trans; [exact H|].
    eapply Qle_trans; eassumption. }
  eapply Qlt_irrefl; eassumption.
Qed.

Lemma round_half_even_ge_floor (y : Q) : Qfloor y <= round_half_even y.
Proof.
  unfold round_half_even. destruct (Qcompare _ _); [destruct (Z.even _)| |]; lia.
Qed.

Lemma round_half_even_ge (k : Z) (y : Q) :
  (inject_Z k <= y)%Q -> k <= round_half_even y.
Proof.
  intros H. pose proof (round_half_even_ge_floor y).
  pose proof (Qfloor_resp_le _ _ H) as Hf. rewrite Qfloor_Z in Hf. lia.
Qed.

Lemma round64_pos_eq (x : Q) :
  (round64_pos x ==
   inject_Z (round_half_even (x / pow2 (Z.max (ilog2 x) (-1022) - 52)))
   * pow2 (Z.max (ilog2 x) (-1022) - 52))%Q.
Proof. unfold round64_pos. apply Qred_correct. Qed.

(** Rounding to nearest never goes below a double that the argument
    reaches. *)
Lemma round64_pos_ge_double (p x : Q) :
  (0 < p)%Q -> (round64_pos p == p)%Q -> (p <= x)%Q -> (p <= round64_pos x)%Q.
Proof.
  intros Hp Hdp Hpx.
  assert (Hx : (0 < x)%Q) by (eapply Qlt_le_trans; eassumption).
  rewrite round64_pos_eq in Hdp. rewrite round64_pos_eq.
  set (ep := Z.max (ilog2 p) (-1022)) in *.
  set (ex := Z.max (ilog2 x) (-1022)).
  set (mp := round_half_even (p / pow2 (ep - 52))) in *.
  pose proof (ilog2_mono p x Hp Hpx) as Hmono.
  assert (Hle : ep <= ex) by (unfold ep, ex; lia).
  pose proof (pow2_pos (ex - 52)) as Hux.
  destruct (Z.eq_dec ep ex) as [Heq | Hne].
  - rewrite <- Heq. rewrite <- Hdp at 1.
    apply Qmult_le_compat_r; [|apply Qlt_le_weak, pow2_pos].
    rewrite <- Zle_Qle. apply round_half_even_ge.
    apply Qle_shift_div_l; [apply pow2_pos|]. rewrite Hdp. exact Hpx.
  - assert (Hex : ex = ilog2 x) by (unfold ep, ex in *; lia).
    destruct (ilog2_spec p Hp) as [_ P2]. destruct (ilog2_spec x Hx) as [X1 _].
    apply Qle_trans with (pow2 ex).
    + apply Qlt_le_weak. eapply Qlt_le_trans; [exact P2|].
      apply pow2_le. unfold ep, ex in *. lia.
    + assert (H52 : (pow2 ex == inject_Z (2 ^ 52) * pow2 (ex - 52))%Q).
      { rewrite <- pow2_Z by lia. rewrite <- pow2_add. now replace (52 + (ex - 52)) with ex by lia. }
      rewrite H52.
      apply Qmult_le_compat_r; [|apply Qlt_le_weak, pow2_pos].
      rewrite <- Zle_Qle. apply round_half_even_ge.
      apply Qle_shift_div_l; [apply pow2_pos|]. rewrite <- H52, Hex. exact X1.
Qed.

Lemma is_double_pos (p : Q) :
  (0 < p)%Q -> is_double p = true -> (round64_pos p == p)%Q.
Proof.
  intros Hp H. unfold is_double in H. apply andb_true_iff in H. destruct H as [H _].
  apply Qeq_bool_iff in H. unfold round64 in H.
  assert (E : (p ?= 0)%Q = Gt) by (now apply Qgt_alt).
  rewrite E in H. exact H.
Qed.

(** A positive price times at least one night is at least the price,
    also after rounding. *)
Lemma js_mul_ge (p : Q) (d : Z) :
  (0 < p)%Q -> 1 <= d -> (p <= js_mul p (inject_Z d))%Q.
Proof.
  intros Hp Hd.
  assert (Hpd : (p <= p * inject_Z d)%Q).
  { rewrite <- (Qmult_1_r p) at 1. apply Qmult_le_l; [exact Hp|].
    change 1%Q with (inject_Z 1). now rewrite <- Zle_Qle. }
  unfold js_mul. destruct (is_double p) eqn:Ep; simpl; [|exact Hpd].
  destruct (is_double (inject_Z d)); [|exact Hpd].
  unfold round64.
  assert (E : (p * inject_Z d ?= 0)%Q = Gt).
  { apply Qgt_alt. eapply Qlt_le_trans; eassumption. }
  rewrite E. apply round64_pos_ge_double; auto. now apply is_double_pos.
Qed.

Lemma round_half_even_le_succ (y : Q) : round_half_even y <= Qfloor y + 1.
Proof.
  unfold round_half_even. destruct (Qcompare _ _); [destruct (Z.even _)| |]; lia.
Qed.

Lemma round_half_even_below (k : Z) (y : Q) :
  (y <= inject_Z k - (9 # 16))%Q -> round_half_even y <= k - 1.
Proof.
  intros H.
  assert (Hf : Qfloor y <= k - 1).
  { assert (Qfloor y < k); [|lia].
    rewrite Zlt_Qlt. eapply Qle_lt_trans; [apply Qfloor_le|].
    eapply Qle_lt_trans; [exact H|].
    rewrite <- (Qplus_0_r (inject_Z k)) at 2. unfold Qminus.
    apply Qplus_lt_r. reflexivity. }
  destruct (Z.eq_dec (Qfloor y) (k - 1)) as [E | E].
  - unfold round_half_even. rewrite E.
    assert (L : (y - inject_Z (k - 1) < 1 # 2)%Q).
    { apply Qle_lt_trans with ((inject_Z k - (9 # 16)) - inject_Z (k - 1))%Q.
      - unfold Qminus. apply Qplus_le_l. exact H.
      - unfold Z.sub. rewrite inject_Z_plus. unfold Qlt, Qminus, Qplus, Qopp, inject_Z.
        simpl. lia. }
    assert (Ec : Qcompare (y - inject_Z (k - 1)) (1 # 2) = Lt)
      by (apply Qlt_alt; exact L).
    rewrite Ec. lia.
  - pose proof (round_half_even_le_succ y). lia.
Qed.

Lemma ilog2_lt (x : Q) (n : Z) : (0 < x)%Q -> (x < pow2 n)%Q -> ilog2 x < n.
Proof.
  intros Hx H. destruct (ilog2_spec x Hx) as [X1 _].
  apply Z.lt_nge. intros Hge.
  assert (pow2 n <= pow2 (ilog2 x))%Q by (apply pow2_le; lia).
  assert (x < x)%Q.
  { eapply Qlt_le_trans; [exact H|]. eapply Qle_trans; eassumption. }
  eapply Qlt_irrefl; eassumption.
Qed.

Lemma pow2_inv (a : Z) : (pow2 a * pow2 (- a) == 1)%Q.
Proof. rewrite <- pow2_add. now replace (a + - a) with 0 by lia. Qed.

(** The largest double below 36 is reached from everything up to
    [36 - 36 * 2^-53]. *)
Lemma round64_pos_below_36 (x : Q) :
  (0 < x)%Q -> (x <= 36 - 36 * pow2 (-53))%Q -> (round64_pos x < 36)%Q.
Proof.
  intros Hx Hle. rewrite round64_pos_eq.
  set (e := Z.max (ilog2 x) (-1022)).
  assert (He : e <= 5).
  { assert (ilog2 x < 6); [|unfold e; lia].
    apply ilog2_lt; [exact Hx|]. eapply Qle_lt_trans; [exact Hle|].
    pose proof (pow2_pos (-53)).
    assert (E6 : (pow2 6 == 64)%Q) by reflexivity. rewrite E6. lra. }
  set (u := pow2 (e - 52)).
  pose proof (pow2_pos (e - 52)) as Hu. fold u in Hu.
  set (K := 36 * 2 ^ (52 - e)).
  assert (HK : (inject_Z K * u == 36)%Q).
  { unfold K, u. rewrite inject_Z_mult, <- pow2_Z by lia.
    rewrite <- Qmult_assoc. replace (e - 52) with (- (52 - e)) by lia.
    rewrite pow2_inv. reflexivity. }
  assert (Hy : (x / u <= inject_Z K - (9 # 16))%Q).
  { apply Qle_shift_div_r; [exact Hu|].
    eapply Qle_trans; [exact Hle|].
    assert (H6 : (36 * pow2 (-53) >= (9 # 16) * u)%Q).
    { setoid_replace (9 # 16)%Q with (36 * pow2 (-6))%Q by reflexivity.
      rewrite <- Qmult_assoc. apply Qmult_le_l; [reflexivity|].
      unfold u. rewrite <- pow2_add. apply pow2_le. lia. }
    lra. }
  pose proof (round_half_even_below K (x / u) Hy) as Hm.
  apply Qle_lt_trans with (inject_Z (K - 1) * u)%Q.
  - apply Qmult_le_compat_r; [now rewrite <- Zle_Qle | now apply Qlt_le_weak].
  - unfold Z.sub. rewrite inject_Z_plus.
    setoid_replace ((inject_Z K + inject_Z (-1)) * u)%Q with (inject_Z K * u - u)%Q by ring.
    lra.
Qed.

(** A double below 1 is at most [1 - 2^-53]. *)
Lemma double_below_1 (r : Q) :
  (0 < r)%Q -> (r < 1)%Q -> (round64_pos r == r)%Q -> (r <= 1 - pow2 (-53))%Q.
Proof.
  intros H0 H1 Hd.
  assert (Hl : ilog2 r < 0) by (apply ilog2_lt; [exact H0 | exact H1]).
  destruct (ilog2_spec r H0) as [_ R2].
  assert (E53 : (pow2 (-53) <= 1 # 2)%Q) by (vm_compute; discriminate).
  destruct (Z.eq_dec (ilog2 r) (-1)) as [E | E].
  - rewrite round64_pos_eq in Hd. rewrite E in Hd.
    change (Z.max (-1) (-1022) - 52) with (-53) in Hd.
    set (m := round_half_even (r / pow2 (-53))) in *.
    assert (Hm : m < 2 ^ 53).
    { rewrite Zlt_Qlt. apply (Qmult_lt_r _ _ (pow2 (-53)) (pow2_pos (-53))).
      rewrite Hd. assert (E1 : (inject_Z (2 ^ 53) * pow2 (-53) == 1)%Q) by reflexivity.
      rewrite E1. exact H1. }
    rewrite <- Hd.
    apply Qle_trans with (inject_Z (2 ^ 53 - 1) * pow2 (-53))%Q.
    + apply Qmult_le_compat_r; [|apply Qlt_le_weak, pow2_pos]. rewrite <- Zle_Qle. lia.
    + vm_compute. discriminate.
  - assert (Hh : (r < pow2 (-1))%Q).
    { eapply Qlt_le_trans; [exact R2|]. apply pow2_le. lia. }
    assert (Eh : (pow2 (-1) == 1 # 2)%Q) by reflexivity. rewrite Eh in Hh.
    generalize dependent (pow2 (-53)). intros c Hc. clear - Hh Hc. lra.
Qed.

Lemma round64_pos_nonneg (x : Q) : (0 < x)%Q -> (0 <= round64_pos x)%Q.
Proof.
  intros Hx. rewrite round64_pos_eq.
  apply Qmult_le_0_compat; [|apply Qlt_le_weak, pow2_pos].
  change 0%Q with (inject_Z 0). rewrite <- Zle_Qle. apply round_half_even_ge.
  apply Qle_shift_div_l; [apply pow2_pos|].
  change (inject_Z 0) with 0%Q. rewrite Qmult_0_l. now apply Qlt_le_weak.
Qed.



(** ** Queries *)

Lemma BookingStatus_eqb_eq (a b : BookingStatus) :
  BookingStatus_eqb a b = true <-> a = b.
Proof. destruct a, b; simpl; split; intro H; congruence. Qed.

Lemma status_in_live (s : BookingStatus) :
  status_in [CONFIRMED; PENDING] s = true <-> s = PENDING \/ s = CONFIRMED.
Proof. destruct s; simpl; split; intro H; auto; try discriminate; destruct H; discriminate. Qed.

Lemma status_in_live_dist (s : BookingStatus) :
  status_in [CONFIRMED; CHECKED_IN] s = true <-> s = CONFIRMED \/ s = CHECKED_IN.
Proof. destruct s; simpl; split; intro H; auto; try discriminate; destruct H; discriminate. Qed.

Lemma dates_clash_spec (rIn rOut : Z) (b : Booking) :
  dates_clash rIn rOut b = true <->
  (checkIn b <= rIn <= checkOut b) \/ (checkIn b <= rOut <= checkOut b).
Proof.
  unfold dates_clash.
  rewrite orb_true_iff, !andb_true_iff, !Z.leb_le, !Z.geb_le.
  tauto.
Qed.

Lemma availabilityWhere_spec (r : Id) (rIn rOut : Z) (b : Booking) :
  availabilityWhere r rIn rOut b = true <->
  roomId b = r /\ (status b = PENDING \/ status b = CONFIRMED) /\
  ((checkIn b <= rIn <= checkOut b) \/ (checkIn b <= rOut <= checkOut b)).
Proof.
  unfold availabilityWhere.
  rewrite !andb_true_iff, String.eqb_eq, status_in_live, dates_clash_spec.
  tauto.
Qed.

Lemma find_is_some {A : Type} (f : A -> bool) (l : list A) :
  (exists x, find f l = Some x) <-> (exists x, In x l /\ f x = true).
Proof.
  split.
  - intros [x Hx]. exists x. now apply find_some in Hx.
  - intros [x [Hin Hf]]. destruct (find f l) as [y|] eqn:E.
    + now exists y.
    + pose proof (find_none f l E x Hin). congruence.
Qed.

(** The handler answers "Room not available" exactly when the
    availability query finds a row, and then writes nothing. *)
Lemma createBooking_conflict (db : Db) (user newId : Id) (body : CreateBookingBody) :
  createBookingSchema_ok body = true ->
  (fst (createBooking db user newId body) = room_not_available <->
   exists b, In b (bookings db) /\
     availabilityWhere (body_roomId body) (body_checkIn body) (body_checkOut body) b = true).
Proof.
  intros Hok. unfold createBooking. rewrite Hok. simpl negb. cbv iota.
  rewrite <- find_is_some. unfold booking_findFirst.
  destruct (find _ (bookings db)) as [b|] eqn:E.
  - simpl. split; [intros _; now exists b | reflexivity].
  - split.
    + destruct (room_findUnique _ db); [destruct (booking_create _ db)|]; simpl;
        discriminate.
    + intros [x Hx]. discriminate.
Qed.

Lemma createBooking_rejected_unchanged (db : Db) (user newId : Id) (body : CreateBookingBody) :
  is_created (fst (createBooking db user newId body)) = false ->
  snd (createBooking db user newId body) = db.
Proof.
  unfold createBooking.
  destruct (negb _); [reflexivity|].
  destruct (booking_findFirst _ db); [reflexivity|].
  destruct (room_findUnique _ db); [|reflexivity].
  destruct (booking_create _ db); [|reflexivity].
  simpl. discriminate.
Qed.

(** ** The availability check and the overlap rule *)

(** With ordered request dates, a clash found by the query is an
    intersection of the closed ranges, and the converse holds whenever the
    request does not strictly enclose the booking. *)
Lemma dates_clash_closed (rIn rOut : Z) (b : Booking) :
  rIn <= rOut ->
  ~ (rIn < checkIn b /\ checkOut b < rOut) ->
  (dates_clash rIn rOut b = true <-> rIn <= checkOut b /\ checkIn b <= rOut).
Proof. intros Hr Hencl. rewrite dates_clash_spec. lia. Qed.

(** C1 (as amended). Take a request with [checkIn <= checkOut] that
    strictly encloses no PENDING or CONFIRMED booking of its room and meets
    no CHECKED_IN booking of its room.  The handler answers 400 "Room not
    available for selected dates" if and only if some live booking of the
    room (PENDING, CONFIRMED or CHECKED_IN) meets the requested dates as
    closed ranges, [requested.checkIn <= existing.checkOut] and
    [existing.checkIn <= requested.checkOut]; a rejected request writes no
    row.  Touching end points therefore conflict. *)
Theorem C1_conflict_iff_closed_ranges_meet
  (db : Db) (user newId : Id) (body : CreateBookingBody) :
  createBookingSchema_ok body = true ->
  body_checkIn body <= body_checkOut body ->
  (forall b, In b (bookings db) -> roomId b = body_roomId body ->
             status b = PENDING \/ status b = CONFIRMED ->
             ~ (body_checkIn body < checkIn b /\ checkOut b < body_checkOut body)) ->
  (forall b, In b (bookings db) -> roomId b = body_roomId body ->
             status b = CHECKED_IN ->
             ~ (body_checkIn body <= checkOut b /\ checkIn b <= body_checkOut body)) ->
  (fst (createBooking db user newId body) = room_not_available <->
   exists b, In b (bookings db) /\ roomId b = body_roomId body /\
             (status b = PENDING \/ status b = CONFIRMED \/ status b = CHECKED_IN) /\
             body_checkIn body <= checkOut b /\ checkIn b <= body_checkOut body)
  /\ (fst (createBooking db user newId body) = room_not_available ->
      snd (createBooking db user newId body) = db).
Proof.
  intros Hok Hord Hencl Hin_house. split.
  - rewrite (createBooking_conflict db user newId body Hok).
    split; intros [b [Hin Hb]]; exists b; split; auto.
    + apply availabilityWhere_spec in Hb. destruct Hb as [Hr [Hs Hd]].
      repeat split; auto; [tauto | lia | lia].
    + destruct Hb as [Hr [Hs Hd]]. apply availabilityWhere_spec.
      destruct Hs as [Hs | [Hs | Hs]].
      * pose proof (Hencl b Hin Hr (or_introl Hs)). repeat split; auto; lia.
      * pose proof (Hencl b Hin Hr (or_intror Hs)). repeat split; auto; lia.
      * exfalso. exact (Hin_house b Hin Hr Hs Hd).
  - intros Hrej. apply createBooking_rejected_unchanged. now rewrite Hrej.
Qed.

(** A back-to-back request: it ends at the instant a PENDING stay
    begins, and is rejected. *)
Lemma C1_conflict_iff_closed_ranges_meet_witness :
  fst (createBooking (Sample.db_with [Sample.booking_of "b1" 100 200 PENDING])
                     Sample.guest "b2" (Sample.request 50 100))
  = room_not_available.
Proof.
  apply (C1_conflict_iff_closed_ranges_meet
           (Sample.db_with [Sample.booking_of "b1" 100 200 PENDING])
           Sample.guest "b2" (Sample.request 50 100)).
  - reflexivity.
  - simpl. lia.
  - simpl. intros b [Hb | []] _ _. subst b. simpl. lia.
  - simpl. intros b [Hb | []] _ Hs. subst b. discriminate Hs.
  - exists (Sample.booking_of "b1" 100 200 PENDING). simpl.
    repeat split; auto; lia.
Defined.

(** The half-open rule of the specification against the handler: a
    back-to-back request does not overlap the existing stay yet is
    rejected, and a request that strictly contains the stay overlaps it yet
    is accepted and stored. *)
Lemma C1_half_open_rule_counterexample :
  (spec_overlap 50 100 100 200 = false /\
   createBooking (Sample.db_with [Sample.booking_of "b1" 100 200 PENDING])
                 Sample.guest "b2" (Sample.request 50 100)
   = (room_not_available, Sample.db_with [Sample.booking_of "b1" 100 200 PENDING]))
  /\
  (spec_overlap 50 300 100 200 = true /\
   is_created (fst (createBooking (Sample.db_with [Sample.booking_of "b1" 100 200 PENDING])
                                  Sample.guest "b2" (Sample.request 50 300))) = true /\
   List.length (bookings (snd (createBooking
                                 (Sample.db_with [Sample.booking_of "b1" 100 200 PENDING])
                                 Sample.guest "b2" (Sample.request 50 300)))) = 2%nat).
Proof. repeat split; vm_compute; reflexivity. Qed.

(** Boundary cases, for any database: a request that ends when a live
    booking begins, or begins when it begins, is rejected. *)
Lemma back_to_back_rejected (db : Db) (user newId : Id) (body : CreateBookingBody) (b : Booking) :
  createBookingSchema_ok body = true ->
  In b (bookings db) -> roomId b = body_roomId body ->
  status b = PENDING \/ status b = CONFIRMED ->
  checkIn b <= checkOut b ->
  body_checkOut body = checkIn b \/ body_checkIn body = checkIn b ->
  createBooking db user newId body = (room_not_available, db).
Proof.
  intros Hok Hin Hr Hs Hb Hedge.
  assert (H : fst (createBooking db user newId body) = room_not_available).
  { apply createBooking_conflict; auto. exists b. split; auto.
    apply availabilityWhere_spec. repeat split; auto. lia. }
  pose proof (createBooking_rejected_unchanged db user newId body) as Hu.
  rewrite H in Hu. specialize (Hu eq_refl).
  destruct (createBooking db user newId body). simpl in *. congruence.
Qed.

(** ** The statuses that block *)

(** C2. At the failing input: the room holds a CHECKED_IN stay over
    [100, 200] and the request asks for [120, 150]; the TypeScript handler
    answers 201 and stores the second booking, because its query selects
    CONFIRMED and PENDING only. The compiled handler selects CONFIRMED and
    CHECKED_IN, so there a PENDING stay does not block either. *)
Theorem C2_checked_in_stay_does_not_block :
  createBooking (Sample.db_with [Sample.booking_of "b1" 100 200 CHECKED_IN])
                Sample.guest "b2" (Sample.request 120 150)
  = (Json 201 (new_booking "b2" Sample.guest (Sample.request 120 150) Sample.room101),
     Sample.db_with [Sample.booking_of "b1" 100 200 CHECKED_IN;
                     new_booking "b2" Sample.guest (Sample.request 120 150) Sample.room101])
  /\ availabilityWhere Sample.room1 120 150 (Sample.booking_of "b1" 100 200 PENDING) = true
  /\ availabilityWhere_dist Sample.room1 120 150 (Sample.booking_of "b1" 100 200 PENDING) = false
  /\ availabilityWhere_dist Sample.room1 120 150 (Sample.booking_of "b1" 100 200 CHECKED_IN) = true.
Proof. repeat split; vm_compute; reflexivity. Qed.

(** Bookings that are CHECKED_OUT, CANCELLED or REJECTED are skipped by
    both queries. *)
Lemma terminal_statuses_never_block (r : Id) (rIn rOut : Z) (b : Booking) :
  status b = CHECKED_OUT \/ status b = CANCELLED \/ status b = REJECTED ->
  availabilityWhere r rIn rOut b = false /\ availabilityWhere_dist r rIn rOut b = false.
Proof.
  intros H. unfold availabilityWhere, availabilityWhere_dist.
  destruct H as [H | [H | H]]; rewrite H; simpl;
    rewrite andb_false_r; simpl; auto.
Qed.

(** ** Creation, step by step and in turn *)

Lemma createBooking_conflict_eq (db : Db) (user newId : Id) (body : CreateBookingBody) :
  createBookingSchema_ok body = true ->
  (exists b, In b (bookings db) /\
     availabilityWhere (body_roomId body) (body_checkIn body) (body_checkOut body) b = true) ->
  createBooking db user newId body = (room_not_available, db).
Proof.
  intros Hok Hex.
  apply (createBooking_conflict db user newId body Hok) in Hex.
  pose proof (createBooking_rejected_unchanged db user newId body) as Hu.
  rewrite Hex in Hu. specialize (Hu eq_refl).
  destruct (createBooking db user newId body). simpl in *. congruence.
Qed.

(** A 201 means: the body parsed, the query found nothing, the room
    exists, and the row built from it was appended. *)
Lemma createBooking_created (db : Db) (user newId : Id) (body : CreateBookingBody) :
  is_created (fst (createBooking db user newId body)) = true ->
  exists room,
    createBookingSchema_ok body = true /\
    booking_findFirst
      (availabilityWhere (body_roomId body) (body_checkIn body) (body_checkOut body)) db = None /\
    room_findUnique (body_roomId body) db = Some room /\
    createBooking db user newId body =
      (Json 201 (new_booking newId user body room),
       mkDb (users db) (hotels db) (rooms db)
            (bookings db ++ [new_booking newId user body room])).
Proof.
  unfold createBooking.
  destruct (createBookingSchema_ok body); simpl negb; cbv iota; [|discriminate].
  destruct (booking_findFirst _ db); [discriminate|].
  destruct (room_findUnique _ db) as [room|] eqn:Er; [|discriminate].
  unfold booking_create.
  destruct (user_exists _ db); [|discriminate].
  destruct (hotel_findUnique _ db); [|discriminate].
  simpl roomId. rewrite Er.
  intros _. exists room. auto.
Qed.

(** A handler that runs alone goes through its three store calls and
    sends what [createBooking] sends. *)
Lemma task_runs_alone (db : Db) (user newId : Id) (body : CreateBookingBody) :
  run_schedule [0; 0; 0]%nat ([spawn user newId body], db)
  = ([Sent (fst (createBooking db user newId body))],
     snd (createBooking db user newId body)).
Proof.
  unfold spawn, createBooking.
  destruct (negb (createBookingSchema_ok body)); [reflexivity|].
  simpl.
  destruct (booking_findFirst _ db); [reflexivity|].
  simpl.
  destruct (room_findUnique _ db); [|reflexivity].
  simpl.
  destruct (booking_create _ db); reflexivity.
Qed.

Lemma serve_all_rejected (row : Booking) (calls : list (Id * Id * CreateBookingBody)) :
  forall db,
    In row (bookings db) ->
    (forall u n c, In (u, n, c) calls ->
       createBookingSchema_ok c = true /\
       availabilityWhere (body_roomId c) (body_checkIn c) (body_checkOut c) row = true) ->
    serve_all calls db = (repeat room_not_available (List.length calls), db).
Proof.
  induction calls as [|[[u n] c] calls IH]; intros db Hin Hall.
  - reflexivity.
  - destruct (Hall u n c (or_introl eq_refl)) as [Hok Hw].
    simpl serve_all.
    rewrite (createBooking_conflict_eq db u n c Hok) by (exists row; auto).
    rewrite IH; auto.
    intros u' n' c' H'. apply (Hall u' n' c'). now right.
Qed.

(** C3 (as amended). When the calls are served one after another, each to
    its response before the next starts, the first is accepted and every
    later call for the same room whose check-in or check-out lies within
    the first call's dates (identical dates with [checkIn <= checkOut] in
    particular) is answered 400 "Room not available for selected dates":
    one row is written. *)
Theorem C3_calls_in_turn_one_success
  (db : Db) (user newId : Id) (body : CreateBookingBody)
  (calls : list (Id * Id * CreateBookingBody)) :
  is_created (fst (createBooking db user newId body)) = true ->
  (forall u n c, In (u, n, c) calls ->
     createBookingSchema_ok c = true /\ body_roomId c = body_roomId body /\
     (body_checkIn body <= body_checkIn c <= body_checkOut body \/
      body_checkIn body <= body_checkOut c <= body_checkOut body)) ->
  exists row,
    serve_all ((user, newId, body) :: calls) db
    = (Json 201 row :: repeat room_not_available (List.length calls),
       mkDb (users db) (hotels db) (rooms db) (bookings db ++ [row])).
Proof.
  intros Hfirst Hlater.
  destruct (createBooking_created db user newId body Hfirst)
    as [room [_ [_ [_ Hc]]]].
  exists (new_booking newId user body room).
  simpl serve_all. rewrite Hc.
  rewrite (serve_all_rejected (new_booking newId user body room)); auto.
  - simpl. apply in_or_app. right. now left.
  - intros u n c Hin. destruct (Hlater u n c Hin) as [Hok [Hr Hd]].
    split; auto. apply availabilityWhere_spec. simpl. auto.
Qed.

(** Three identical calls served in turn on the free sample room. *)
Lemma C3_calls_in_turn_one_success_witness :
  exists row,
    serve_all [(Sample.guest, "b1", Sample.request 100 200);
               (Sample.guest, "b2", Sample.request 100 200);
               (Sample.owner, "b3", Sample.request 100 200)]
              (Sample.db_with [])
    = ([Json 201 row; room_not_available; room_not_available],
       Sample.db_with [row]).
Proof.
  apply (C3_calls_in_turn_one_success (Sample.db_with []) Sample.guest "b1"
           (Sample.request 100 200)
           [(Sample.guest, "b2", Sample.request 100 200);
            (Sample.owner, "b3", Sample.request 100 200)]).
  - reflexivity.
  - intros u n c [H | [H | []]]; inversion H; subst; simpl;
      repeat split; auto; lia.
Defined.

(** Two identical calls in flight: when both availability queries run
    before either insert, both calls are answered 201 and the room holds
    two PENDING bookings over the same dates. *)
Lemma C3_interleaved_calls_counterexample :
  run_schedule [0; 1; 0; 1; 0; 1]%nat
    ([spawn Sample.guest "b1" (Sample.request 100 200);
      spawn Sample.guest "b2" (Sample.request 100 200)],
     Sample.db_with [])
  = ([Sent (Json 201 (new_booking "b1" Sample.guest (Sample.request 100 200) Sample.room101));
      Sent (Json 201 (new_booking "b2" Sample.guest (Sample.request 100 200) Sample.room101))],
     Sample.db_with
       [new_booking "b1" Sample.guest (Sample.request 100 200) Sample.room101;
        new_booking "b2" Sample.guest (Sample.request 100 200) Sample.room101]).
Proof. vm_compute. reflexivity. Qed.

(** ** Status updates *)

Lemma find_map_update (id : Id) (s : BookingStatus) (l : list Booking) (b : Booking) :
  find (fun x => String.eqb (booking_id x) id) l = Some b ->
  find (fun x => String.eqb (booking_id x) id)
       (map (fun x => if String.eqb (booking_id x) id then set_status s x else x) l)
  = Some (set_status s b).
Proof.
  induction l as [|x l IH]; simpl; [discriminate|].
  destruct (String.eqb (booking_id x) id) eqn:E; simpl; rewrite E.
  - intros H. now inversion H.
  - exact IH.
Qed.

(** C4 (as amended). The handler has no transition table: for every
    stored booking, whatever its current status, and every requested
    status, the update asked by the owner of the booking's hotel is
    answered 200 and the stored booking carries the requested status. *)
Theorem C4_owner_sets_any_status
  (db : Db) (user id : Id) (booking : Booking) (hotel : Hotel)
  (newStatus : BookingStatus) :
  booking_findUnique id db = Some booking ->
  hotel_findUnique (hotelId booking) db = Some hotel ->
  ownerId hotel = user ->
  updateBookingStatus db user id newStatus
  = (Json 200 (set_status newStatus booking), booking_update_status id newStatus db)
  /\ booking_findUnique id (snd (updateBookingStatus db user id newStatus))
     = Some (set_status newStatus booking)
  /\ status (set_status newStatus booking) = newStatus.
Proof.
  intros Hb Hh Ho.
  assert (E : updateBookingStatus db user id newStatus
              = (Json 200 (set_status newStatus booking),
                 booking_update_status id newStatus db)).
  { unfold updateBookingStatus. rewrite Hb, Hh, Ho, String.eqb_refl. reflexivity. }
  rewrite E. repeat split.
  simpl. unfold booking_findUnique, booking_update_status. simpl.
  now apply find_map_update.
Qed.

(** The owner moves a PENDING booking straight to CHECKED_OUT. *)
Lemma C4_owner_sets_any_status_witness :
  updateBookingStatus (Sample.db_with [Sample.booking_of "b1" 100 200 PENDING])
                      Sample.owner "b1" CHECKED_OUT
  = (Json 200 (Sample.booking_of "b1" 100 200 CHECKED_OUT),
     Sample.db_with [Sample.booking_of "b1" 100 200 CHECKED_OUT]).
Proof.
  apply (C4_owner_sets_any_status
           (Sample.db_with [Sample.booking_of "b1" 100 200 PENDING])
           Sample.owner "b1" (Sample.booking_of "b1" 100 200 PENDING)
           Sample.grand_hotel CHECKED_OUT); reflexivity.
Defined.

(** Two transitions outside the table of the specification that the
    handler performs: PENDING to CHECKED_OUT, and CANCELLED to CONFIRMED. *)
Lemma C4_transition_table_counterexample :
  (transition_allowed PENDING CHECKED_OUT = false /\
   updateBookingStatus (Sample.db_with [Sample.booking_of "b1" 100 200 PENDING])
                       Sample.owner "b1" CHECKED_OUT
   = (Json 200 (Sample.booking_of "b1" 100 200 CHECKED_OUT),
      Sample.db_with [Sample.booking_of "b1" 100 200 CHECKED_OUT]))
  /\
  (transition_allowed CANCELLED CONFIRMED = false /\
   updateBookingStatus (Sample.db_with [Sample.booking_of "b1" 100 200 CANCELLED])
                       Sample.owner "b1" CONFIRMED
   = (Json 200 (Sample.booking_of "b1" 100 200 CONFIRMED),
      Sample.db_with [Sample.booking_of "b1" 100 200 CONFIRMED])).
Proof. repeat split; vm_compute; reflexivity. Qed.

(** C7 (as amended). Only the owner passes: a status update by any actor
    other than the owner of the booking's hotel, its managers included, is
    answered 403 "Not authorized" and leaves the database as it was; the
    owner's request passes the check and is answered 200. *)
Theorem C7_only_the_owner_is_authorized
  (db : Db) (user id : Id) (booking : Booking) (hotel : Hotel)
  (newStatus : BookingStatus) :
  booking_findUnique id db = Some booking ->
  hotel_findUnique (hotelId booking) db = Some hotel ->
  (user <> ownerId hotel ->
   updateBookingStatus db user id newStatus = (not_authorized, db))
  /\ (user = ownerId hotel ->
      fst (updateBookingStatus db user id newStatus)
      = Json 200 (set_status newStatus booking)).
Proof.
  intros Hb Hh. unfold updateBookingStatus. rewrite Hb, Hh. split; intros Hu.
  - destruct (String.eqb (ownerId hotel) user) eqn:E; [|reflexivity].
    apply String.eqb_eq in E. congruence.
  - subst user. rewrite String.eqb_refl. reflexivity.
Qed.

(** A guest is turned away from the sample hotel's booking. *)
Lemma C7_only_the_owner_is_authorized_witness :
  updateBookingStatus (Sample.db_with [Sample.booking_of "b1" 100 200 PENDING])
                      Sample.guest "b1" CONFIRMED
  = (not_authorized, Sample.db_with [Sample.booking_of "b1" 100 200 PENDING]).
Proof.
  apply (C7_only_the_owner_is_authorized
           (Sample.db_with [Sample.booking_of "b1" 100 200 PENDING])
           Sample.guest "b1" (Sample.booking_of "b1" 100 200 PENDING)
           Sample.grand_hotel CONFIRMED); [reflexivity | reflexivity | discriminate].
Defined.

(** A manager of the hotel, who is not its owner, is refused. *)
Lemma C7_manager_refused_counterexample :
  In Sample.manager (managers Sample.grand_hotel) /\
  updateBookingStatus (Sample.db_with [Sample.booking_of "b1" 100 200 PENDING])
                      Sample.manager "b1" CONFIRMED
  = (not_authorized, Sample.db_with [Sample.booking_of "b1" 100 200 PENDING]).
Proof. split; [now left | vm_compute; reflexivity]. Qed.

(** ** Pricing *)

(** [ceil_div a b] is the least integer [n] with [a <= n * b]. *)
Lemma ceil_div_spec (a b : Z) :
  0 < b -> (ceil_div a b - 1) * b < a <= ceil_div a b * b.
Proof.
  intros Hb. unfold ceil_div.
  pose proof (Z.div_mod (- a) b ltac:(lia)) as Hdm.
  pose proof (Z.mod_pos_bound (- a) b Hb) as Hm.
  nia.
Qed.





Example pricing_example :
  Sample.feb1 = 1738418400000 /\ Sample.feb5 = 1738756800000 /\
  days_between Sample.feb1 Sample.feb5 = 4 /\
  fst (createBooking (Sample.db_with []) Sample.guest "b1"
                     (Sample.request Sample.feb1 Sample.feb5))
  = Json 201 (mkBooking "b1" Sample.guest Sample.hotel1 Sample.room1
                        1738418400000 1738756800000 PENDING (400 # 1)
                        PaymentPENDING [] None).
Proof. repeat split; vm_compute; reflexivity. Qed.


Lemma rate_positive (p : Q) : negb (Qle_bool p 0) = true -> (0 < p)%Q.
Proof.
  intros H. apply negb_true_iff in H. apply Qnot_le_lt. intros Hle.
  apply Qle_bool_iff in Hle. congruence.
Qed.








(** ** The encrypted blob *)

Lemma randomBytes_length (n : nat) (g : Rng) :
  List.length (fst (randomBytes n g)) = n.
Proof. unfold randomBytes. simpl. now rewrite length_map, length_seq. Qed.

Lemma firstn_exact {A : Type} (a b : list A) (n : nat) :
  List.length a = n -> firstn n (a ++ b) = a.
Proof.
  intros <-. rewrite firstn_app, Nat.sub_diag, firstn_all. simpl.
  apply app_nil_r.
Qed.

Lemma skipn_exact {A : Type} (a b : list A) (n : nat) :
  List.length a = n -> skipn n (a ++ b) = b.
Proof.
  intros <-. rewrite skipn_app, Nat.sub_diag, skipn_all. reflexivity.
Qed.

(** Reading back the four fields of [salt || iv || tag || ciphertext] at
    the offsets [decrypt] uses. *)
Lemma blob_fields (salt iv tag ct : Buffer) :
  List.length salt = EncryptionService.saltLength ->
  List.length iv = EncryptionService.ivLength ->
  List.length tag = EncryptionService.tagLength ->
  subarray 0 64 (salt ++ iv ++ tag ++ ct) = salt
  /\ subarray 64 (64 + 16) (salt ++ iv ++ tag ++ ct) = iv
  /\ subarray (64 + 16) (64 + 16 + 16) (salt ++ iv ++ tag ++ ct) = tag
  /\ subarray_from (64 + 16 + 16) (salt ++ iv ++ tag ++ ct) = ct.
Proof.
  intros Hs Hi Ht. unfold subarray, subarray_from.
  assert (Hsi : List.length (salt ++ iv) = (64 + 16)%nat)
    by (rewrite length_app, Hs, Hi; reflexivity).
  assert (Hsit : List.length (salt ++ iv ++ tag) = (64 + 16 + 16)%nat)
    by (rewrite !length_app, Hs, Hi, Ht; reflexivity).
  repeat split.
  - simpl skipn. now apply firstn_exact.
  - rewrite (skipn_exact salt _ 64 Hs). now apply firstn_exact.
  - replace (salt ++ iv ++ tag ++ ct) with ((salt ++ iv) ++ tag ++ ct)
      by now rewrite <- app_assoc.
    rewrite (skipn_exact (salt ++ iv) _ _ Hsi). now apply firstn_exact.
  - replace (salt ++ iv ++ tag ++ ct) with ((salt ++ iv ++ tag) ++ ct)
      by now rewrite <- !app_assoc.
    now apply skipn_exact.
Qed.

(** C8. For every payload and every state of the random generator,
    [decrypt] applied to the blob and the key that [encrypt] returns gives
    back the payload, and the blob is [salt || iv || tag || ciphertext]
    with a 64-byte salt, a 16-byte iv and a 16-byte tag. *)
Theorem C8_decrypt_of_encrypt
  (C : NodeCrypto) (L : NodeCryptoLaws C) (g : Rng) (data : Buffer) :
  EncryptionService.decrypt
    (EncryptionService.encryptedData (fst (EncryptionService.encrypt g data)))
    (EncryptionService.encryptionKey (fst (EncryptionService.encrypt g data)))
  = Some data
  /\ exists salt iv tag ct,
       EncryptionService.encryptedData (fst (EncryptionService.encrypt g data))
       = salt ++ iv ++ tag ++ ct
       /\ List.length salt = 64%nat /\ List.length iv = 16%nat
       /\ List.length tag = 16%nat
       /\ (ct, tag)
          = cipher "aes-256-gcm"
                   (EncryptionService.generateKey
                      (EncryptionService.encryptionKey
                         (fst (EncryptionService.encrypt g data))) salt)
                   iv 16 data.
Proof.
  unfold EncryptionService.encrypt.
  destruct (randomBytes EncryptionService.saltLength g) as [salt g1] eqn:Es.
  destruct (randomBytes EncryptionService.ivLength g1) as [iv g2] eqn:Ei.
  destruct (randomBytes 32 g2) as [pw g3] eqn:Ep.
  pose proof (randomBytes_length EncryptionService.saltLength g) as Hs.
  pose proof (randomBytes_length EncryptionService.ivLength g1) as Hi.
  rewrite Es in Hs. rewrite Ei in Hi. simpl in Hs, Hi.
  set (key := EncryptionService.generateKey (hex_of_buffer pw) salt).
  assert (Hk : List.length key = 32%nat) by apply pbkdf2Sync_length.
  pose proof (getAuthTag_length EncryptionService.algorithm key iv
                EncryptionService.tagLength data) as Ht.
  pose proof (decipher_cipher key iv data Hk) as Hd.
  unfold EncryptionService.algorithm, EncryptionService.tagLength in *.
  destruct (cipher "aes-256-gcm" key iv 16 data) as [ct tag] eqn:Ec.
  simpl in Ht, Hd. simpl fst. simpl EncryptionService.encryptedData.
  simpl EncryptionService.encryptionKey.
  split.
  - unfold EncryptionService.decrypt.
    unfold EncryptionService.saltLength, EncryptionService.ivLength,
      EncryptionService.tagLength, EncryptionService.algorithm.
    destruct (blob_fields salt iv tag ct Hs Hi Ht) as [F1 [F2 [F3 F4]]].
    rewrite F1, F2, F3, F4. exact Hd.
  - exists salt, iv, tag, ct. repeat split; auto.
Qed.

Lemma buffer_eqb_refl (a : Buffer) : ToyCrypto.buffer_eqb a a = true.
Proof.
  induction a as [|x a IH]; simpl; [reflexivity|].
  assert (E : Byte.eqb x x = true) by (apply Byte.byte_dec_lb; reflexivity).
  now rewrite E, IH.
Qed.

Lemma toy_laws : NodeCryptoLaws ToyCrypto.toy.
Proof.
  constructor; simpl.
  - intros pw salt it keylen dg. unfold ToyCrypto.derive.
    rewrite length_firstn, length_app, repeat_length. lia.
  - intros alg key iv n data. unfold ToyCrypto.seal, ToyCrypto.tag_of. simpl.
    rewrite length_firstn, !length_app, repeat_length. lia.
  - intros key iv data Hk. unfold ToyCrypto.open, ToyCrypto.seal. simpl.
    now rewrite buffer_eqb_refl, rev_involutive.
Qed.

(** The service run on the stand-in library with a three-byte payload. *)
Lemma C8_decrypt_of_encrypt_witness :
  @EncryptionService.decrypt ToyCrypto.toy
    (EncryptionService.encryptedData
       (fst (@EncryptionService.encrypt ToyCrypto.toy ToyCrypto.rng0 [x01; x02; x03])))
    (EncryptionService.encryptionKey
       (fst (@EncryptionService.encrypt ToyCrypto.toy ToyCrypto.rng0 [x01; x02; x03])))
  = Some [x01; x02; x03].
Proof.
  exact (proj1 (C8_decrypt_of_encrypt ToyCrypto.toy toy_laws ToyCrypto.rng0
                  [x01; x02; x03])).
Defined.

Example toy_blob_length :
  List.length (EncryptionService.encryptedData
                 (fst (@EncryptionService.encrypt ToyCrypto.toy ToyCrypto.rng0
                         [x01; x02; x03]))) = 99%nat
  /\ String.length (EncryptionService.encryptionKey
                      (fst (@EncryptionService.encrypt ToyCrypto.toy ToyCrypto.rng0
                              [x01; x02; x03]))) = 64%nat.
Proof. split; vm_compute; reflexivity. Qed.

(** ** A flipped bit *)

















(** On the stand-in, each of the 792 single-bit flips of the blob of a
    three-byte payload is refused, and the blob itself is accepted. *)
Example every_flip_of_a_blob_is_refused :
  forallb
    (fun i =>
       match @EncryptionService.decrypt ParityCrypto.parity_crypto
               (flip_bit i
                  (EncryptionService.encryptedData
                     (fst (@EncryptionService.encrypt ParityCrypto.parity_crypto
                             ToyCrypto.rng0 [x01; x02; x03]))))
               (EncryptionService.encryptionKey
                  (fst (@EncryptionService.encrypt ParityCrypto.parity_crypto
                          ToyCrypto.rng0 [x01; x02; x03])))
       with
       | None => true
       | Some _ => false
       end)
    (seq 0 792)
  = true
  /\ @EncryptionService.decrypt ParityCrypto.parity_crypto
       (EncryptionService.encryptedData
          (fst (@EncryptionService.encrypt ParityCrypto.parity_crypto
                  ToyCrypto.rng0 [x01; x02; x03])))
       (EncryptionService.encryptionKey
          (fst (@EncryptionService.encrypt ParityCrypto.parity_crypto
                  ToyCrypto.rng0 [x01; x02; x03])))
     = Some [x01; x02; x03].
Proof. split; vm_compute; reflexivity. Qed.

(** ** Room codes *)

(** The model of SHA-256 on the test vectors of FIPS 180-4 and on a
    message of two blocks. *)
Example sha256_test_vectors :
  sha256_hex "abc"
  = "ba7816bf8f01cfea414140de5dae2223b00361a396177a9cb410ff61f20015ad"
  /\ sha256_hex ""
     = "e3b0c44298fc1c149afbf4c8996fb92427ae41e4649b934ca495991b7852b855"
  /\ sha256_hex "aaaaaaaaaaaaaaaaaaaaaaaaaaaaaaaaaaaaaaaaaaaaaaaaaaaaaaaaaaaa"
     = "11ee391211c6256460b6ed375957fadd8061cafbb31daf967db875aebd5aaad4".
Proof. repeat split; vm_compute; reflexivity. Qed.

Example sha256_constants :
  hd 0 SHA256.K = 0x428a2f98 /\ nth 63 SHA256.K 0 = 0xc67178f2
  /\ List.length SHA256.K = 64%nat
  /\ SHA256.ra SHA256.H0 = 0x6a09e667 /\ SHA256.rh SHA256.H0 = 0x5be0cd19.
Proof. repeat split; vm_compute; reflexivity. Qed.

Example generateRoomCode_example :
  Number_toString 1738418400000 = "1738418400000"
  /\ generateRoomCode 1738418400000 = "49b3b8".
Proof. split; vm_compute; reflexivity. Qed.

Lemma generateRoomCode_length (now : Z) :
  String.length (generateRoomCode now) = 6%nat.
Proof.
  unfold generateRoomCode, sha256_hex, SHA256.digest. cbv zeta.
  set (h := SHA256.blocks _ _ _). clearbody h.
  reflexivity.
Qed.

(** What a 201 of the room handler means. *)
Lemma createRoom_created (db db1 : Db) (now : Z) (newId : Id) (body : CreateRoomBody) (r : Room) :
  createRoom db now newId body = (Json 201 r, db1) ->
  r = new_room newId (generateRoomCode now) body
  /\ db1 = mkDb (users db) (hotels db) (rooms db ++ [r]) (bookings db).
Proof.
  unfold createRoom.
  destruct (negb (createRoomSchema_ok body)); [discriminate|].
  unfold room_create.
  destruct (hotel_findUnique _ db); [|discriminate].
  destruct (existsb _ (rooms db)); [discriminate|].
  destruct (existsb _ (rooms db)); [discriminate|].
  intros H. inversion H. split; reflexivity.
Qed.

(** C10. The room code is a function of the clock reading alone: the
    first six hexadecimal digits of the SHA-256 of the reading written in
    decimal. Two creations that read the same millisecond are given the
    same code, whatever the database and the request; the handler checks
    nothing itself, and on a database that already holds one of them the
    other is refused by the unique constraint of the room table
    (400 "Failed to create room"). *)
Theorem C10_room_code_is_a_function_of_the_clock
  (db db1 : Db) (now : Z) (id1 : Id) (body1 : CreateRoomBody) (r1 : Room) :
  createRoom db now id1 body1 = (Json 201 r1, db1) ->
  roomCode r1 = substring 0 6 (sha256_hex (Number_toString now))
  /\ String.length (roomCode r1) = 6%nat
  /\ (forall dbx id2 body2 r2 db2,
        createRoom dbx now id2 body2 = (Json 201 r2, db2) ->
        roomCode r2 = roomCode r1)
  /\ (forall id2 body2,
        createRoom db1 now id2 body2 = (failed_to_create_room, db1)).
Proof.
  intros H1. destruct (createRoom_created _ _ _ _ _ _ H1) as [Hr Hdb].
  assert (Hcode : roomCode r1 = generateRoomCode now) by (subst r1; reflexivity).
  repeat split.
  - exact Hcode.
  - rewrite Hcode. apply generateRoomCode_length.
  - intros dbx id2 body2 r2 db2 H2.
    destruct (createRoom_created _ _ _ _ _ _ H2) as [Hr2 _].
    rewrite Hcode. subst r2. reflexivity.
  - intros id2 body2. unfold createRoom.
    destruct (negb (createRoomSchema_ok body2)); [reflexivity|].
    unfold room_create.
    destruct (hotel_findUnique _ db1); [|reflexivity].
    replace (existsb _ (rooms db1)) with true; [reflexivity|].
    symmetry. subst db1. simpl rooms. rewrite existsb_app. simpl.
    rewrite Hcode, String.eqb_refl. now rewrite orb_true_r.
Qed.

(** Room 102 is created at 1738418400000; room 103, asked for in the
    same millisecond, is refused. *)
Lemma C10_room_code_is_a_function_of_the_clock_witness :
  createRoom (snd (createRoom (Sample.db_with []) 1738418400000 "room-102"
                              (Sample.room_request "102")))
             1738418400000 "room-103" (Sample.room_request "103")
  = (failed_to_create_room,
     snd (createRoom (Sample.db_with []) 1738418400000 "room-102"
                     (Sample.room_request "102"))).
Proof.
  refine (proj2 (proj2 (proj2
           (C10_room_code_is_a_function_of_the_clock
              (Sample.db_with []) _ 1738418400000 "room-102"
              (Sample.room_request "102")
              (new_room "room-102" "49b3b8" (Sample.room_request "102")) _)))
           "room-103" (Sample.room_request "103")).
  vm_compute. reflexivity.
Defined.

(* ===================================================================== *)
(** * Further properties of the booking routes *)
(* ===================================================================== *)

(** X1. Whatever the request, creating a booking leaves the users, the
    hotels, the rooms and every stored booking as they are: on a 201
    exactly one row, the one sent back, is appended; on any other answer
    the database is the one before. *)
Theorem createBooking_appends_at_most_one_row
  (db : Db) (user newId : Id) (body : CreateBookingBody) :
  users (snd (createBooking db user newId body)) = users db
  /\ hotels (snd (createBooking db user newId body)) = hotels db
  /\ rooms (snd (createBooking db user newId body)) = rooms db
  /\ ((exists row,
         fst (createBooking db user newId body) = Json 201 row
         /\ bookings (snd (createBooking db user newId body)) = bookings db ++ [row])
      \/ (is_created (fst (createBooking db user newId body)) = false
          /\ snd (createBooking db user newId body) = db)).
Proof.
  destruct (is_created (fst (createBooking db user newId body))) eqn:E.
  - destruct (createBooking_created db user newId body E) as [room [_ [_ [_ Hc]]]].
    rewrite Hc. simpl. repeat split. left. eauto.
  - rewrite (createBooking_rejected_unchanged db user newId body E).
    repeat split. right. split; reflexivity.
Qed.

(** X2. A booking that is created is PENDING with payment PENDING,
    belongs to the authenticated user, carries the requested room, hotel
    and dates, and refers to a user, a hotel and a room that exist; neither
    its check-in nor its check-out falls within a PENDING or CONFIRMED
    booking already stored for the room. *)
Theorem created_booking_is_pending_and_clear
  (db db' : Db) (user newId : Id) (body : CreateBookingBody) (b : Booking) :
  createBooking db user newId body = (Json 201 b, db') ->
  (booking_id b = newId /\ userId b = user /\ hotelId b = body_hotelId body
   /\ roomId b = body_roomId body /\ checkIn b = body_checkIn body
   /\ checkOut b = body_checkOut body
   /\ status b = PENDING /\ paymentStatus b = PaymentPENDING)
  /\ (user_exists user db = true
      /\ hotel_findUnique (hotelId b) db <> None
      /\ room_findUnique (roomId b) db <> None)
  /\ (forall e, In e (bookings db) -> roomId e = roomId b ->
                status e = PENDING \/ status e = CONFIRMED ->
                ~ (checkIn e <= checkIn b <= checkOut e)
                /\ ~ (checkIn e <= checkOut b <= checkOut e)).
Proof.
  intros Hc.
  assert (Hcr : is_created (fst (createBooking db user newId body)) = true)
    by (rewrite Hc; reflexivity).
  destruct (createBooking_created db user newId body Hcr)
    as [room [Hok [Hfree [Hroom Hc']]]].
  assert (Hb : b = new_booking newId user body room) by congruence.
  split; [subst b; simpl; repeat split|]. split.
  - revert Hc. unfold createBooking. rewrite Hok, Hfree, Hroom. simpl negb. cbv iota.
    unfold booking_create.
    destruct (user_exists _ db) eqn:Eu; [|discriminate].
    destruct (hotel_findUnique _ db) eqn:Eh; [|discriminate].
    intros _. subst b. simpl in *. rewrite Eh, Hroom.
    repeat split; congruence.
  - intros e Hin Hr Hs.
    pose proof (find_none _ _ Hfree e Hin) as Hw.
    assert (Hn : ~ (roomId e = body_roomId body /\
                    (status e = PENDING \/ status e = CONFIRMED) /\
                    ((checkIn e <= body_checkIn body <= checkOut e) \/
                     (checkIn e <= body_checkOut body <= checkOut e)))).
    { intros H. apply availabilityWhere_spec in H. congruence. }
    subst b. simpl in *. split; intros H; apply Hn; auto.
Qed.

Lemma created_booking_is_pending_and_clear_witness :
  status (new_booking "b2" Sample.guest (Sample.request 300 400) Sample.room101) = PENDING
  /\ userId (new_booking "b2" Sample.guest (Sample.request 300 400) Sample.room101)
     = Sample.guest.
Proof.
  destruct (created_booking_is_pending_and_clear
              (Sample.db_with [Sample.booking_of "b1" 100 200 PENDING])
              (Sample.db_with [Sample.booking_of "b1" 100 200 PENDING;
                               new_booking "b2" Sample.guest (Sample.request 300 400)
                                           Sample.room101])
              Sample.guest "b2" (Sample.request 300 400)
              (new_booking "b2" Sample.guest (Sample.request 300 400) Sample.room101)
              eq_refl) as [[_ [Hu [_ [_ [_ [_ [Hs _]]]]]]] _].
  split; [exact Hs | exact Hu].
Defined.

(** X3. A request for a room that does not exist never creates a
    booking and leaves the database as it is; when the body passes the
    schema (its [hotelId] and [roomId] are uuids) and no stored booking
    clashes with it the answer is 404 "Room not found". The availability
    query runs first, so a clash is reported before the missing room. An id
    that is not a uuid is answered 400 "Failed to create booking" before
    any query. *)
Theorem createBooking_unknown_room
  (db : Db) (user newId : Id) (body : CreateBookingBody) :
  room_findUnique (body_roomId body) db = None ->
  is_created (fst (createBooking db user newId body)) = false
  /\ snd (createBooking db user newId body) = db
  /\ (createBookingSchema_ok body = true ->
      booking_findFirst
        (availabilityWhere (body_roomId body) (body_checkIn body) (body_checkOut body)) db
      = None ->
      fst (createBooking db user newId body) = room_not_found)
  /\ (createBookingSchema_ok body = true ->
      booking_findFirst
        (availabilityWhere (body_roomId body) (body_checkIn body) (body_checkOut body)) db
      <> None ->
      fst (createBooking db user newId body) = room_not_available)
  /\ (is_uuid (body_hotelId body) = false \/ is_uuid (body_roomId body) = false ->
      fst (createBooking db user newId body) = failed_to_create).
Proof.
  intros Hroom.
  assert (Hnc : is_created (fst (createBooking db user newId body)) = false).
  { unfold createBooking. destruct (negb _); [reflexivity|].
    destruct (booking_findFirst _ db); [reflexivity|]. rewrite Hroom. reflexivity. }
  split; [exact Hnc|]. split; [now apply createBooking_rejected_unchanged|].
  unfold createBooking. split; [|split].
  - intros Hok Hf. rewrite Hok. simpl negb. cbv iota.
    rewrite Hf, Hroom. reflexivity.
  - intros Hok Hf. rewrite Hok. simpl negb. cbv iota.
    destruct (booking_findFirst _ db); [reflexivity | congruence].
  - intros Hid. unfold createBookingSchema_ok.
    destruct Hid as [Hid | Hid]; rewrite Hid; [|rewrite andb_false_r]; reflexivity.
Qed.

Lemma createBooking_unknown_room_witness :
  fst (createBooking (Sample.db_with []) Sample.guest "b1"
                     (mkBody Sample.hotel1
                             Sample.no_such_room 100 200 [] None))
  = room_not_found
  /\ fst (createBooking (Sample.db_with []) Sample.guest "b1"
                        (mkBody Sample.hotel1
                                "room-999" 100 200 [] None))
     = failed_to_create.
Proof.
  split.
  - exact (proj1 (proj2 (proj2 (createBooking_unknown_room
             (Sample.db_with []) Sample.guest "b1"
             (mkBody Sample.hotel1
                     Sample.no_such_room 100 200 [] None)
             eq_refl))) eq_refl eq_refl).
  - exact (proj2 (proj2 (proj2 (proj2 (createBooking_unknown_room
             (Sample.db_with []) Sample.guest "b1"
             (mkBody Sample.hotel1
                     "room-999" 100 200 [] None)
             eq_refl)))) (or_intror eq_refl)).
Defined.

(** X4. A stay with [checkIn < checkOut] is charged at least one night,
    a stay of exactly [k] days is charged [k] nights, and when the room's
    price is positive the total of a created booking is at least one
    night's price. *)
Theorem created_booking_charges_at_least_one_night
  (db db' : Db) (user newId : Id) (body : CreateBookingBody) (b : Booking) (room : Room) :
  createBooking db user newId body = (Json 201 b, db') ->
  room_findUnique (body_roomId body) db = Some room ->
  body_checkIn body < body_checkOut body ->
  1 <= days_between (body_checkIn body) (body_checkOut body)
  /\ (forall k, body_checkOut body - body_checkIn body = k * 86400000 ->
                days_between (body_checkIn body) (body_checkOut body) = k)
  /\ ((0 < price room)%Q -> (price room <= totalAmount b)%Q).
Proof.
  intros Hc Hr Hlt.
  assert (Hcr : is_created (fst (createBooking db user newId body)) = true)
    by (rewrite Hc; reflexivity).
  destruct (createBooking_created db user newId body Hcr)
    as [room' [_ [_ [Hr' Hc']]]].
  assert (room' = room) by congruence. subst room'.
  assert (Hb : b = new_booking newId user body room) by congruence.
  pose proof (ceil_div_spec (body_checkOut body - body_checkIn body) 86400000
                ltac:(lia)) as Hs.
  unfold days_between, MS_PER_DAY.
  change (1000 * 60 * 60 * 24) with 86400000.
  assert (H1 : 1 <= ceil_div (body_checkOut body - body_checkIn body) 86400000) by nia.
  split; [exact H1|]. split.
  - intros k Hk. nia.
  - intros Hp. subst b. simpl totalAmount. unfold days_between, MS_PER_DAY.
    change (1000 * 60 * 60 * 24) with 86400000.
    apply js_mul_ge; [exact Hp | exact H1].
Qed.

Lemma created_booking_charges_at_least_one_night_witness :
  1 <= days_between 0 1.
Proof.
  assert (H : body_checkIn (Sample.request 0 1) < body_checkOut (Sample.request 0 1))
    by (simpl; lia).
  exact (proj1 (created_booking_charges_at_least_one_night
                  (Sample.db_with [])
                  (Sample.db_with [new_booking "b1" Sample.guest (Sample.request 0 1)
                                               Sample.room101])
                  Sample.guest "b1" (Sample.request 0 1)
                  (new_booking "b1" Sample.guest (Sample.request 0 1) Sample.room101)
                  Sample.room101 eq_refl eq_refl H)).
Defined.

(** X5. The number of nights never decreases when the check-out moves
    later or the check-in earlier, and a stay split at an instant [t] into
    two bookings is charged at least as many nights as the stay booked in
    one piece, and at most one night more. *)
Theorem nights_monotone_and_split (checkIn_ t checkOut_ checkOut' : Z) :
  (checkOut_ <= checkOut' ->
   days_between checkIn_ checkOut_ <= days_between checkIn_ checkOut')
  /\ (checkIn_ <= t ->
      days_between t checkOut_ <= days_between checkIn_ checkOut_)
  /\ days_between checkIn_ checkOut_
     <= days_between checkIn_ t + days_between t checkOut_
     <= days_between checkIn_ checkOut_ + 1.
Proof.
  unfold days_between, MS_PER_DAY. change (1000 * 60 * 60 * 24) with 86400000.
  pose proof (ceil_div_spec (checkOut_ - checkIn_) 86400000 ltac:(lia)).
  pose proof (ceil_div_spec (checkOut' - checkIn_) 86400000 ltac:(lia)).
  pose proof (ceil_div_spec (t - checkIn_) 86400000 ltac:(lia)).
  pose proof (ceil_div_spec (checkOut_ - t) 86400000 ltac:(lia)).
  repeat split; intros; lia.
Qed.

Lemma nights_monotone_and_split_witness :
  days_between 0 100 <= days_between 0 86400001.
Proof.
  assert (H : 100 <= 86400001) by lia.
  exact (proj1 (nights_monotone_and_split 0 0 100 86400001) H).
Defined.

(** ** Listing a user's bookings *)

Lemma filter_app_one {A : Type} (f : A -> bool) (l : list A) (x : A) :
  filter f (l ++ [x]) = filter f l ++ (if f x then [x] else []).
Proof. rewrite filter_app. reflexivity. Qed.

(** X6. After a booking is created, the list the route GET
    /api/bookings/user returns for its user is the list from before
    followed by the new booking with its hotel and room; the list of every
    other user is the one from before. *)
Theorem user_bookings_after_create
  (db db' : Db) (user newId : Id) (body : CreateBookingBody) (b : Booking) :
  createBooking db user newId body = (Json 201 b, db') ->
  (exists old,
      fst (getUserBookings db user) = Json 200 old
      /\ fst (getUserBookings db' user)
         = Json 200 (old ++ [(b, hotel_findUnique (body_hotelId body) db,
                                 room_findUnique (body_roomId body) db)]))
  /\ (forall other, other <> user ->
        fst (getUserBookings db' other) = fst (getUserBookings db other))
  /\ snd (getUserBookings db' user) = db'.
Proof.
  intros Hc.
  assert (Hcr : is_created (fst (createBooking db user newId body)) = true)
    by (rewrite Hc; reflexivity).
  destruct (createBooking_created db user newId body Hcr)
    as [room [_ [_ [_ Hc']]]].
  rewrite Hc in Hc'. inversion Hc'. subst. clear Hc'.
  unfold getUserBookings. simpl. split; [|split; [|reflexivity]].
  - eexists. split; [reflexivity|].
    rewrite filter_app_one. simpl. rewrite String.eqb_refl.
    rewrite map_app. reflexivity.
  - intros other Hne. rewrite filter_app_one. simpl.
    destruct (String.eqb user other) eqn:E.
    + apply String.eqb_eq in E. congruence.
    + rewrite app_nil_r. reflexivity.
Qed.

Lemma user_bookings_after_create_witness :
  fst (getUserBookings
         (Sample.db_with [new_booking "b1" Sample.guest (Sample.request 100 200)
                                      Sample.room101])
         Sample.owner)
  = fst (getUserBookings (Sample.db_with []) Sample.owner).
Proof.
  destruct (user_bookings_after_create
              (Sample.db_with [])
              (Sample.db_with [new_booking "b1" Sample.guest (Sample.request 100 200)
                                           Sample.room101])
              Sample.guest "b1" (Sample.request 100 200)
              (new_booking "b1" Sample.guest (Sample.request 100 200) Sample.room101)
              eq_refl) as [_ [H _]].
  apply H. discriminate.
Defined.

(** ** Status updates: what they leave alone and what they release *)

(** X7. A status update changes nothing but the status of the bookings
    with the given id: users, hotels and rooms are untouched, the bookings
    keep their number and order, every booking with another id is the same
    row, and the updated row differs from the old one in its status only.
    Unless the answer is 200 the database is the one before. *)
Theorem updateBookingStatus_changes_status_only
  (db : Db) (user id : Id) (s : BookingStatus) :
  users (snd (updateBookingStatus db user id s)) = users db
  /\ hotels (snd (updateBookingStatus db user id s)) = hotels db
  /\ rooms (snd (updateBookingStatus db user id s)) = rooms db
  /\ (snd (updateBookingStatus db user id s) = db
      \/ (exists b, fst (updateBookingStatus db user id s) = Json 200 b)
         /\ bookings (snd (updateBookingStatus db user id s))
            = map (fun b => if String.eqb (booking_id b) id then set_status s b else b)
                  (bookings db))
  /\ List.length (bookings (snd (updateBookingStatus db user id s)))
     = List.length (bookings db)
  /\ (forall n b b',
        nth_error (bookings db) n = Some b ->
        nth_error (bookings (snd (updateBookingStatus db user id s))) n = Some b' ->
        (booking_id b <> id -> b' = b)
        /\ booking_id b' = booking_id b /\ userId b' = userId b
        /\ hotelId b' = hotelId b /\ roomId b' = roomId b
        /\ checkIn b' = checkIn b /\ checkOut b' = checkOut b
        /\ totalAmount b' = totalAmount b /\ paymentStatus b' = paymentStatus b).
Proof.
  unfold updateBookingStatus.
  destruct (booking_findUnique id db) as [bk|].
  2:{ simpl. repeat split; auto; intros; try congruence;
      assert (b' = b) by congruence; subst; reflexivity. }
  destruct (hotel_findUnique (hotelId bk) db) as [h|].
  2:{ simpl. repeat split; auto; intros; try congruence;
      assert (b' = b) by congruence; subst; reflexivity. }
  destruct (negb (String.eqb (ownerId h) user)).
  { simpl. repeat split; auto; intros; try congruence;
      assert (b' = b) by congruence; subst; reflexivity. }
  simpl. split; [reflexivity|]. split; [reflexivity|]. split; [reflexivity|].
  split; [right; split; [eauto | reflexivity]|].
  split; [apply length_map|].
  intros n b b' Hn Hn'.
  rewrite nth_error_map, Hn in Hn'. simpl in Hn'. inversion Hn'; subst b'.
  destruct (String.eqb (booking_id b) id) eqn:E.
  - split; [|simpl; repeat split]. intros Hne. apply String.eqb_eq in E. congruence.
  - repeat split.
Qed.

Lemma updateBookingStatus_ok_inv
  (db db' : Db) (user id : Id) (s : BookingStatus) (x : Booking) :
  updateBookingStatus db user id s = (Json 200 x, db') ->
  exists bk h,
    booking_findUnique id db = Some bk
    /\ hotel_findUnique (hotelId bk) db = Some h
    /\ ownerId h = user
    /\ x = set_status s bk
    /\ db' = booking_update_status id s db.
Proof.
  unfold updateBookingStatus.
  destruct (booking_findUnique id db) as [bk|] eqn:Eb; [|discriminate].
  destruct (hotel_findUnique (hotelId bk) db) as [h|] eqn:Eh; [|discriminate].
  destruct (String.eqb (ownerId h) user) eqn:E; simpl; [|discriminate].
  intros H. inversion H. exists bk, h. apply String.eqb_eq in E.
  repeat split; auto.
Qed.

(** X8. Once the owner has set a booking to a status other than PENDING
    or CONFIRMED (CHECKED_IN included), that booking no longer blocks any
    request: a request that no other stored booking clashes with is not
    answered "Room not available". *)
Theorem status_update_releases_the_dates
  (db db' : Db) (user id : Id) (s : BookingStatus) (x : Booking)
  (u n : Id) (body : CreateBookingBody) :
  updateBookingStatus db user id s = (Json 200 x, db') ->
  s <> PENDING -> s <> CONFIRMED ->
  createBookingSchema_ok body = true ->
  (forall b, In b (bookings db) -> booking_id b <> id ->
     availabilityWhere (body_roomId body) (body_checkIn body) (body_checkOut body) b = false) ->
  fst (createBooking db' u n body) <> room_not_available
  /\ (forall b' r i o, In b' (bookings db') -> booking_id b' = id ->
                       availabilityWhere r i o b' = false).
Proof.
  intros Hu Hp Hc Hok Hothers.
  destruct (updateBookingStatus_ok_inv _ _ _ _ _ _ Hu) as [bk [h [_ [_ [_ [_ Hdb]]]]]].
  assert (Hrel : forall b' r i o, In b' (bookings db') -> booking_id b' = id ->
                                  availabilityWhere r i o b' = false).
  { intros b' r i o Hin Hid. subst db'. simpl in Hin.
    apply in_map_iff in Hin. destruct Hin as [b [Hb Hin]].
    destruct (String.eqb (booking_id b) id) eqn:E.
    - subst b'. unfold availabilityWhere. simpl status.
      replace (status_in [CONFIRMED; PENDING] s) with false.
      + rewrite andb_false_r. reflexivity.
      + destruct s; simpl; congruence.
    - subst b'. apply String.eqb_neq in E. congruence. }
  split; [|exact Hrel].
  intros Hrej. apply (createBooking_conflict db' u n body Hok) in Hrej.
  destruct Hrej as [b' [Hin Hw]].
  destruct (String.eqb (booking_id b') id) eqn:E.
  - apply String.eqb_eq in E. rewrite (Hrel b' _ _ _ Hin E) in Hw. discriminate.
  - subst db'. simpl in Hin. apply in_map_iff in Hin. destruct Hin as [b [Hb Hin]].
    destruct (String.eqb (booking_id b) id) eqn:E'.
    + subst b'. simpl in E. congruence.
    + subst b'. apply String.eqb_neq in E'. rewrite (Hothers b Hin E') in Hw.
      discriminate.
Qed.

(** The guest of the sample booking is checked in; the same dates can
    then be booked again. *)
Lemma status_update_releases_the_dates_witness :
  fst (createBooking (Sample.db_with [Sample.booking_of "b1" 100 200 CHECKED_IN])
                     Sample.guest "b2" (Sample.request 100 200))
  <> room_not_available.
Proof.
  refine (proj1 (status_update_releases_the_dates
                   (Sample.db_with [Sample.booking_of "b1" 100 200 CONFIRMED])
                   (Sample.db_with [Sample.booking_of "b1" 100 200 CHECKED_IN])
                   Sample.owner "b1" CHECKED_IN
                   (Sample.booking_of "b1" 100 200 CHECKED_IN)
                   Sample.guest "b2" (Sample.request 100 200)
                   eq_refl _ _ eq_refl _)).
  - discriminate.
  - discriminate.
  - simpl. intros b [Hb | []] Hne. subst b. simpl in Hne. congruence.
Defined.

(** X9. Two status updates of the same booking by the owner: the second
    behaves as if the first had not happened. It is answered as on the
    original database and leaves the same database (the last write wins,
    whatever the two statuses). *)
Theorem status_updates_last_write_wins
  (db db1 : Db) (user id : Id) (s1 s2 : BookingStatus) (x : Booking) :
  updateBookingStatus db user id s1 = (Json 200 x, db1) ->
  updateBookingStatus db1 user id s2 = updateBookingStatus db user id s2.
Proof.
  intros Hu.
  destruct (updateBookingStatus_ok_inv _ _ _ _ _ _ Hu)
    as [bk [h [Hb [Hh [Ho [_ Hdb]]]]]].
  assert (Hb1 : booking_findUnique id db1 = Some (set_status s1 bk)).
  { subst db1. unfold booking_findUnique, booking_update_status. simpl.
    now apply find_map_update. }
  assert (Hh1 : hotel_findUnique (hotelId bk) db1 = Some h) by (subst db1; exact Hh).
  unfold updateBookingStatus. rewrite Hb1, Hb. simpl hotelId. rewrite Hh1, Hh.
  rewrite Ho, String.eqb_refl. simpl negb. cbv iota.
  f_equal. subst db1. unfold booking_update_status. simpl. f_equal.
  rewrite map_map. apply map_ext. intros b.
  destruct (String.eqb (booking_id b) id) eqn:E; simpl; rewrite E; reflexivity.
Qed.

Lemma status_updates_last_write_wins_witness :
  updateBookingStatus (Sample.db_with [Sample.booking_of "b1" 100 200 CANCELLED])
                      Sample.owner "b1" CONFIRMED
  = updateBookingStatus (Sample.db_with [Sample.booking_of "b1" 100 200 PENDING])
                        Sample.owner "b1" CONFIRMED.
Proof.
  exact (status_updates_last_write_wins
           (Sample.db_with [Sample.booking_of "b1" 100 200 PENDING])
           (Sample.db_with [Sample.booking_of "b1" 100 200 CANCELLED])
           Sample.owner "b1" CANCELLED CONFIRMED
           (Sample.booking_of "b1" 100 200 CANCELLED) eq_refl).
Defined.

(* ===================================================================== *)
(** * Further properties of the room routes *)
(* ===================================================================== *)

Lemma createRoomSchema_ok_spec (body : CreateRoomBody) :
  createRoomSchema_ok body = true <->
  is_uuid (rbody_hotelId body) = true
  /\ (0 < rbody_price body)%Q /\ 1 <= rbody_capacity body.
Proof.
  unfold createRoomSchema_ok.
  rewrite !andb_true_iff, Z.leb_le.
  split.
  - intros [[Hu Hp] Hc]. repeat split; auto. now apply rate_positive.
  - intros [Hu [Hp Hc]]. repeat split; auto.
    destruct (Qle_bool (rbody_price body) 0) eqn:E; [|reflexivity].
    apply Qle_bool_iff in E. exfalso. apply (Qlt_not_le _ _ Hp E).
Qed.

Lemma createRoom_cases (db : Db) (now : Z) (newId : Id) (body : CreateRoomBody) :
  (createRoom db now newId body = (failed_to_create_room, db)
   /\ (createRoomSchema_ok body = false
       \/ hotel_findUnique (rbody_hotelId body) db = None
       \/ existsb (fun r => String.eqb (roomCode r) (generateRoomCode now)) (rooms db) = true
       \/ existsb (fun r => String.eqb (room_hotelId r) (rbody_hotelId body)
                            && String.eqb (roomNumber r) (rbody_roomNumber body))
                  (rooms db) = true))
  \/ (createRoom db now newId body
      = (Json 201 (new_room newId (generateRoomCode now) body),
         mkDb (users db) (hotels db)
              (rooms db ++ [new_room newId (generateRoomCode now) body]) (bookings db))
      /\ createRoomSchema_ok body = true
      /\ hotel_findUnique (rbody_hotelId body) db <> None
      /\ existsb (fun r => String.eqb (roomCode r) (generateRoomCode now)) (rooms db) = false
      /\ existsb (fun r => String.eqb (room_hotelId r) (rbody_hotelId body)
                           && String.eqb (roomNumber r) (rbody_roomNumber body))
                 (rooms db) = false).
Proof.
  unfold createRoom.
  destruct (createRoomSchema_ok body); simpl negb; cbv iota;
    [|left; split; [reflexivity | auto]].
  unfold room_create. simpl room_hotelId. simpl roomCode. simpl roomNumber.
  destruct (hotel_findUnique (rbody_hotelId body) db) eqn:Eh;
    [|left; split; [reflexivity | auto]].
  destruct (existsb (fun r => String.eqb (roomCode r) (generateRoomCode now)) (rooms db))
    eqn:E1; [left; split; [reflexivity | auto]|].
  destruct (existsb (fun r => String.eqb (room_hotelId r) (rbody_hotelId body)
                              && String.eqb (roomNumber r) (rbody_roomNumber body))
                    (rooms db))
    eqn:E2; [left; split; [reflexivity | auto 6]|].
  right. repeat split; auto. congruence.
Qed.

(** X10. Creating a room leaves users, hotels, bookings and every stored
    room as they are. It either appends exactly the room sent back with the
    201, which is AVAILABLE and refers to an existing hotel, or answers 400
    "Failed to create room" and writes nothing; a price that is not positive
    or a capacity below 1 always gives the 400. *)
Theorem createRoom_appends_at_most_one_room
  (db : Db) (now : Z) (newId : Id) (body : CreateRoomBody) :
  users (snd (createRoom db now newId body)) = users db
  /\ hotels (snd (createRoom db now newId body)) = hotels db
  /\ bookings (snd (createRoom db now newId body)) = bookings db
  /\ ((exists row,
         fst (createRoom db now newId body) = Json 201 row
         /\ rooms (snd (createRoom db now newId body)) = rooms db ++ [row]
         /\ room_id row = newId /\ room_status row = AVAILABLE
         /\ room_hotelId row = rbody_hotelId body
         /\ hotel_findUnique (room_hotelId row) db <> None)
      \/ createRoom db now newId body = (failed_to_create_room, db))
  /\ ((rbody_price body <= 0)%Q \/ rbody_capacity body < 1 ->
      createRoom db now newId body = (failed_to_create_room, db)).
Proof.
  destruct (createRoom_cases db now newId body) as [[Hc Hwhy] | [Hc [Hok [Hh _]]]].
  - rewrite Hc. simpl. repeat split; auto.
  - rewrite Hc. simpl. repeat split.
    + left. eexists. repeat split. exact Hh.
    + intros Hbad. apply createRoomSchema_ok_spec in Hok. destruct Hok as [_ [Hp Hcap]].
      destruct Hbad as [Hbad | Hbad]; [|lia].
      exfalso. apply (Qlt_not_le _ _ Hp Hbad).
Qed.

Lemma createRoom_appends_at_most_one_room_witness :
  createRoom (Sample.db_with []) 1738418400000 "room-102"
             (mkRoomBody Sample.hotel1 "102" DELUXE (0 # 1) 2 [] None)
  = (failed_to_create_room, Sample.db_with []).
Proof.
  assert (H : (rbody_price (mkRoomBody Sample.hotel1 "102" DELUXE (0 # 1) 2 [] None) <= 0)%Q
              \/ rbody_capacity (mkRoomBody Sample.hotel1 "102" DELUXE (0 # 1) 2 [] None) < 1).
  { left. simpl. unfold Qle. simpl. lia. }
  exact (proj2 (proj2 (proj2 (proj2
           (createRoom_appends_at_most_one_room (Sample.db_with []) 1738418400000
              "room-102" (mkRoomBody Sample.hotel1 "102" DELUXE (0 # 1) 2 [] None))))) H).
Defined.

Lemma NoDup_snoc {A : Type} (l : list A) (x : A) :
  NoDup l -> ~ In x l -> NoDup (l ++ [x]).
Proof.
  induction l as [|y l IH]; simpl; intros Hnd Hx.
  - constructor; [intros []| constructor].
  - inversion Hnd; subst. constructor.
    + rewrite in_app_iff. simpl. intros [H | [H | []]]; [auto | subst; auto].
    + apply IH; auto.
Qed.

Lemma existsb_false_not_in {A B : Type} (f : A -> B) (eqb : B -> B -> bool)
      (Heq : forall a b, eqb a b = true <-> a = b) (l : list A) (x : B) :
  existsb (fun a => eqb (f a) x) l = false -> ~ In x (map f l).
Proof.
  intros He Hin. apply in_map_iff in Hin. destruct Hin as [a [Ha Hin]].
  assert (existsb (fun a => eqb (f a) x) l = true).
  { apply existsb_exists. exists a. split; auto. now apply Heq. }
  congruence.
Qed.

Lemma updateRoomSchema_price (body : UpdateRoomBody) (p : Q) :
  updateRoomSchema_ok body = true -> ubody_price body = Some p ->
  (0 < p)%Q /\ Qeq_bool p 0 = false.
Proof.
  unfold updateRoomSchema_ok. intros H Hp. rewrite Hp in H.
  apply andb_true_iff in H. destruct H as [_ H]. apply negb_true_iff in H.
  assert (Hlt : (0 < p)%Q).
  { apply Qnot_le_lt. intros Hle. apply Qle_bool_iff in Hle. congruence. }
  split; [exact Hlt|].
  destruct (Qeq_bool p 0) eqn:E; [|reflexivity].
  apply Qeq_bool_iff in E. exfalso. apply (Qlt_not_eq _ _ Hlt). now symmetry.
Qed.

(** X11. The room table stays consistent under both room handlers: if
    room codes are pairwise distinct, pairs of hotel and room number are
    pairwise distinct and every price is positive, the same holds after
    any call of POST /api/rooms and after any call of PUT /api/rooms/:id. *)
Theorem room_handlers_keep_rooms_consistent
  (db : Db) (now : Z) (newId : Id) (cbody : CreateRoomBody)
  (user id : Id) (ubody : UpdateRoomBody) :
  rooms_consistent db ->
  rooms_consistent (snd (createRoom db now newId cbody))
  /\ rooms_consistent (snd (updateRoom db user id ubody)).
Proof.
  intros [Hcode [Hnum Hprice]]. split.
  - destruct (createRoom_cases db now newId cbody)
      as [[Hc _] | [Hc [Hok [_ [E1 E2]]]]]; rewrite Hc; simpl.
    + repeat split; assumption.
    + unfold rooms_consistent. simpl. rewrite !map_app. simpl. repeat split.
      * apply NoDup_snoc; [assumption|].
        apply (existsb_false_not_in roomCode String.eqb String.eqb_eq). exact E1.
      * apply NoDup_snoc; [assumption|].
        apply (existsb_false_not_in (fun r => (room_hotelId r, roomNumber r))
                 (fun a b => String.eqb (fst a) (fst b) && String.eqb (snd a) (snd b))).
        -- intros [a1 a2] [b1 b2]. simpl.
           rewrite andb_true_iff, !String.eqb_eq. split; [intros []; congruence|].
           intros H. inversion H. auto.
        -- exact E2.
      * apply Forall_app. split; [assumption|]. constructor; [|constructor].
        simpl. apply createRoomSchema_ok_spec in Hok. exact (proj1 (proj2 Hok)).
  - unfold updateRoom.
    destruct (updateRoomSchema_ok ubody) eqn:Hok; simpl negb; cbv iota;
      [|repeat split; assumption].
    destruct (room_findUnique id db); [|repeat split; assumption].
    destruct (hotel_findUnique _ db); [|repeat split; assumption].
    destruct (negb _); [repeat split; assumption|].
    unfold rooms_consistent. simpl. rewrite !map_map. repeat split.
    + erewrite map_ext; [exact Hcode|]. intros x.
      destruct (String.eqb (room_id x) id); reflexivity.
    + erewrite map_ext; [exact Hnum|]. intros x.
      destruct (String.eqb (room_id x) id); reflexivity.
    + apply Forall_map. eapply Forall_impl; [|exact Hprice].
      intros x Hr. simpl. destruct (String.eqb (room_id x) id); [|exact Hr].
      simpl. destruct (ubody_price ubody) as [p|] eqn:Ep; [|exact Hr].
      destruct (updateRoomSchema_price ubody p Hok Ep) as [Hp Hz].
      rewrite Hz. exact Hp.
Qed.

Lemma room_handlers_keep_rooms_consistent_witness :
  rooms_consistent (snd (createRoom (Sample.db_with []) 1738418400000 "room-102"
                                    (Sample.room_request "102")))
  /\ rooms_consistent (snd (updateRoom (Sample.db_with []) Sample.owner Sample.room1
                                       (mkUpdateRoomBody (Some SUITE) (Some (150 # 1))))).
Proof.
  apply (room_handlers_keep_rooms_consistent (Sample.db_with [])).
  unfold rooms_consistent. simpl. repeat split.
  - constructor; [intros [] | constructor].
  - constructor; [intros [] | constructor].
  - constructor; [reflexivity | constructor].
Defined.

(** X12. PUT /api/rooms/:id refuses without writing: a body whose type is
    PRESIDENTIAL or whose price is not positive is answered 500 "Failed to
    update room" (although POST /api/rooms accepts PRESIDENTIAL); with a
    valid body, a room that does not exist and a caller who is not the
    owner of the room's hotel are both answered 403 "Not authorized". *)
Theorem updateRoom_refusals (db : Db) (user id : Id) (body : UpdateRoomBody) :
  (ubody_type body = Some PRESIDENTIAL ->
   updateRoom db user id body = (failed_to_update_room, db))
  /\ (forall p, ubody_price body = Some p -> (p <= 0)%Q ->
                updateRoom db user id body = (failed_to_update_room, db))
  /\ (updateRoomSchema_ok body = true -> room_findUnique id db = None ->
      updateRoom db user id body = (room_not_authorized, db))
  /\ (forall room h,
        updateRoomSchema_ok body = true ->
        room_findUnique id db = Some room ->
        hotel_findUnique (room_hotelId room) db = Some h ->
        ownerId h <> user ->
        updateRoom db user id body = (room_not_authorized, db))
  /\ createRoomSchema_ok (mkRoomBody Sample.hotel1 "1" PRESIDENTIAL (1 # 1) 1 [] None) = true.
Proof.
  unfold updateRoom. repeat split.
  - intros Ht. unfold updateRoomSchema_ok. rewrite Ht. reflexivity.
  - intros p Hp Hle. unfold updateRoomSchema_ok. rewrite Hp.
    apply Qle_bool_iff in Hle. rewrite Hle, andb_false_r. reflexivity.
  - intros Hok Hr. rewrite Hok, Hr. reflexivity.
  - intros room h Hok Hr Hh Ho. rewrite Hok, Hr, Hh. simpl negb. cbv iota.
    destruct (String.eqb (ownerId h) user) eqn:E; [|reflexivity].
    apply String.eqb_eq in E. congruence.
Qed.

Lemma updateRoom_refusals_witness :
  updateRoom (Sample.db_with []) Sample.manager Sample.room1
             (mkUpdateRoomBody (Some SUITE) None)
  = (room_not_authorized, Sample.db_with []).
Proof.
  refine (proj1 (proj2 (proj2 (proj2
           (updateRoom_refusals (Sample.db_with []) Sample.manager Sample.room1
              (mkUpdateRoomBody (Some SUITE) None)))))
           Sample.room101 Sample.grand_hotel eq_refl eq_refl eq_refl _).
  discriminate.
Defined.

Lemma find_map_room_update (id : Id) (body : UpdateRoomBody) (l : list Room) (r : Room) :
  find (fun x => String.eqb (room_id x) id) l = Some r ->
  find (fun x => String.eqb (room_id x) id)
       (map (fun x => if String.eqb (room_id x) id then apply_room_update body x else x) l)
  = Some (apply_room_update body r).
Proof.
  induction l as [|x l IH]; simpl; [discriminate|].
  destruct (String.eqb (room_id x) id) eqn:E; simpl; rewrite E.
  - intros H. now inversion H.
  - exact IH.
Qed.

(** X13. The owner of the room's hotel updates a room: the answer is 200
    with the updated room, which is what a later lookup finds. A type or a
    price present in the body is the new type or price, an absent one keeps
    the old value; id, number, code, capacity, amenities, images, status
    and hotel of the room never change, and neither do other rooms, users,
    hotels or bookings. *)
Theorem updateRoom_by_owner
  (db : Db) (user id : Id) (body : UpdateRoomBody) (room : Room) (h : Hotel) :
  updateRoomSchema_ok body = true ->
  room_findUnique id db = Some room ->
  hotel_findUnique (room_hotelId room) db = Some h ->
  ownerId h = user ->
  updateRoom db user id body
  = (Json 200 (apply_room_update body room), room_update id body db)
  /\ room_findUnique id (snd (updateRoom db user id body))
     = Some (apply_room_update body room)
  /\ (forall t, ubody_type body = Some t -> room_type (apply_room_update body room) = t)
  /\ (ubody_type body = None -> room_type (apply_room_update body room) = room_type room)
  /\ (forall p, ubody_price body = Some p -> price (apply_room_update body room) = p)
  /\ (ubody_price body = None -> price (apply_room_update body room) = price room)
  /\ (room_id (apply_room_update body room) = room_id room
      /\ roomNumber (apply_room_update body room) = roomNumber room
      /\ roomCode (apply_room_update body room) = roomCode room
      /\ capacity (apply_room_update body room) = capacity room
      /\ amenities (apply_room_update body room) = amenities room
      /\ images (apply_room_update body room) = images room
      /\ room_status (apply_room_update body room) = room_status room
      /\ room_hotelId (apply_room_update body room) = room_hotelId room)
  /\ (forall r, In r (rooms db) -> room_id r <> id ->
                In r (rooms (snd (updateRoom db user id body))))
  /\ users (snd (updateRoom db user id body)) = users db
  /\ hotels (snd (updateRoom db user id body)) = hotels db
  /\ bookings (snd (updateRoom db user id body)) = bookings db.
Proof.
  intros Hok Hr Hh Ho.
  assert (E : updateRoom db user id body
              = (Json 200 (apply_room_update body room), room_update id body db)).
  { unfold updateRoom. rewrite Hok, Hr, Hh, Ho, String.eqb_refl. reflexivity. }
  rewrite E. simpl snd. split; [reflexivity|]. split.
  { unfold room_findUnique, room_update. simpl. now apply find_map_room_update. }
  split; [intros t Ht; simpl; now rewrite Ht|].
  split; [intros Ht; simpl; now rewrite Ht|].
  split.
  { intros p Hp. simpl. rewrite Hp.
    destruct (updateRoomSchema_price body p Hok Hp) as [_ Hz]. now rewrite Hz. }
  split; [intros Hp; simpl; now rewrite Hp|].
  split; [simpl; repeat split|].
  split; [|simpl; repeat split].
  intros r Hin Hne. simpl. apply in_map_iff. exists r. split; [|exact Hin].
  destruct (String.eqb (room_id r) id) eqn:E'; [|reflexivity].
  apply String.eqb_eq in E'. congruence.
Qed.

Lemma updateRoom_by_owner_witness :
  updateRoom (Sample.db_with []) Sample.owner Sample.room1
             (mkUpdateRoomBody None (Some (150 # 1)))
  = (Json 200 (mkRoom Sample.room1 "101" "0f3a9c" STANDARD (150 # 1) 2 [] [] AVAILABLE
                      Sample.hotel1),
     mkDb [Sample.owner; Sample.manager; Sample.guest] [Sample.grand_hotel]
          [mkRoom Sample.room1 "101" "0f3a9c" STANDARD (150 # 1) 2 [] [] AVAILABLE Sample.hotel1]
          []).
Proof.
  exact (proj1 (updateRoom_by_owner (Sample.db_with []) Sample.owner Sample.room1
                  (mkUpdateRoomBody None (Some (150 # 1))) Sample.room101
                  Sample.grand_hotel eq_refl eq_refl eq_refl eq_refl)).
Defined.

(** X14. A room that has just been created is listed by GET
    /api/rooms/hotel/:hotelId under its hotel, after the rooms listed
    before, together with the dates and status of every stored booking
    that names its id; the listing of any other hotel is unchanged. *)
Theorem new_room_is_listed_under_its_hotel
  (db db' : Db) (now : Z) (newId : Id) (body : CreateRoomBody) (r : Room) :
  createRoom db now newId body = (Json 201 r, db') ->
  (exists old,
      fst (getRoomsByHotel db (rbody_hotelId body)) = Json 200 old
      /\ fst (getRoomsByHotel db' (rbody_hotelId body))
         = Json 200 (old ++ [(r, map (fun b => (checkIn b, checkOut b, status b))
                                     (filter (fun b => String.eqb (roomId b) newId)
                                             (bookings db)))]))
  /\ (forall other, other <> rbody_hotelId body ->
        fst (getRoomsByHotel db' other) = fst (getRoomsByHotel db other)).
Proof.
  intros Hc. destruct (createRoom_created _ _ _ _ _ _ Hc) as [Hr Hdb].
  subst db'. unfold getRoomsByHotel. simpl. split.
  - eexists. split; [reflexivity|].
    rewrite filter_app_one.
    assert (Eh : String.eqb (room_hotelId r) (rbody_hotelId body) = true)
      by (subst r; simpl; apply String.eqb_refl).
    rewrite Eh, map_app. simpl.
    assert (Ei : room_id r = newId) by (subst r; reflexivity).
    rewrite Ei. reflexivity.
  - intros other Hne. rewrite filter_app_one.
    assert (Eh : String.eqb (room_hotelId r) other = false).
    { subst r. simpl. apply String.eqb_neq. congruence. }
    rewrite Eh, app_nil_r. reflexivity.
Qed.

Lemma new_room_is_listed_under_its_hotel_witness :
  fst (getRoomsByHotel
         (snd (createRoom (Sample.db_with []) 1738418400000 "room-102"
                          (Sample.room_request "102")))
         "hotel-2")
  = fst (getRoomsByHotel (Sample.db_with []) "hotel-2").
Proof.
  refine (proj2 (new_room_is_listed_under_its_hotel
                   (Sample.db_with []) _ 1738418400000 "room-102"
                   (Sample.room_request "102")
                   (new_room "room-102" "49b3b8" (Sample.room_request "102")) _)
                "hotel-2" _).
  - vm_compute. reflexivity.
  - discriminate.
Defined.

(* ===================================================================== *)
(** * Properties of the hotel routes *)
(* ===================================================================== *)

Lemma charAt_hotel_code_chars (i : Z) :
  0 <= i < 36 ->
  exists c, charAt i hotel_code_chars = String c EmptyString
            /\ In c (list_ascii_of_string hotel_code_chars).
Proof.
  intros Hi.
  assert (Hall : forallb
            (fun n => match charAt (Z.of_nat n) hotel_code_chars with
                      | String c EmptyString =>
                          existsb (Ascii.eqb c) (list_ascii_of_string hotel_code_chars)
                      | _ => false
                      end) (seq 0 36) = true) by (vm_compute; reflexivity).
  rewrite forallb_forall in Hall.
  specialize (Hall (Z.to_nat i)).
  rewrite Z2Nat.id in Hall by lia.
  assert (Hin : In (Z.to_nat i) (seq 0 36)) by (apply in_seq; lia).
  specialize (Hall Hin).
  destruct (charAt i hotel_code_chars) as [|c [|c' s]]; try discriminate.
  exists c. split; [reflexivity|].
  apply existsb_exists in Hall. destruct Hall as [x [Hx Heq]].
  apply Ascii.eqb_eq in Heq. now subst x.
Qed.

(** [Math.floor(Math.random() * 36)] is an index of the alphabet. *)
Lemma random_index_in_range (r : Q) :
  (0 <= r)%Q -> (r < 1)%Q -> 0 <= Qfloor (js_mul r (inject_Z 36)) < 36.
Proof.
  intros H0 H1.
  assert (Hb : (0 <= js_mul r (inject_Z 36))%Q /\ (js_mul r (inject_Z 36) < 36)%Q).
  { unfold js_mul. destruct (is_double r) eqn:Er; cbn [andb].
    2:{ change (inject_Z 36) with 36%Q. split; lra. }
    replace (is_double (inject_Z 36)) with true by (vm_compute; reflexivity).
    unfold round64. destruct (Qcompare_spec (r * inject_Z 36) 0) as [E | E | E].
    - split; [apply Qle_refl | reflexivity].
    - change (inject_Z 36) with 36%Q in E. lra.
    - assert (Hr : (0 < r)%Q) by (change (inject_Z 36) with 36%Q in E; lra).
      split; [now apply round64_pos_nonneg|].
      apply round64_pos_below_36; [exact E|].
      pose proof (double_below_1 r Hr H1 (is_double_pos r Hr Er)).
      change (inject_Z 36) with 36%Q. lra. }
  destruct Hb as [B0 B1]. split.
  - change 0 with (Qfloor (inject_Z 0)). now apply Qfloor_resp_le.
  - rewrite Zlt_Qlt. eapply Qle_lt_trans; [apply Qfloor_le | exact B1].
Qed.

(** X15. Whatever the four values of [Math.random()] in [0, 1), the
    hotel code has exactly four characters, each of them a lower-case
    letter or a digit of the alphabet the function draws from. *)
Theorem hotel_code_has_four_characters_of_the_alphabet (r0 r1 r2 r3 : Q) :
  (0 <= r0)%Q /\ (r0 < 1)%Q -> (0 <= r1)%Q /\ (r1 < 1)%Q ->
  (0 <= r2)%Q /\ (r2 < 1)%Q -> (0 <= r3)%Q /\ (r3 < 1)%Q ->
  String.length (generateUniqueHotelCode r0 r1 r2 r3) = 4%nat
  /\ (forall c, In c (list_ascii_of_string (generateUniqueHotelCode r0 r1 r2 r3)) ->
                In c (list_ascii_of_string hotel_code_chars)).
Proof.
  intros [A0 B0] [A1 B1] [A2 B2] [A3 B3].
  unfold generateUniqueHotelCode.
  change (Z.of_nat (String.length hotel_code_chars)) with 36.
  destruct (charAt_hotel_code_chars _ (random_index_in_range r0 A0 B0)) as [c0 [E0 I0]].
  destruct (charAt_hotel_code_chars _ (random_index_in_range r1 A1 B1)) as [c1 [E1 I1]].
  destruct (charAt_hotel_code_chars _ (random_index_in_range r2 A2 B2)) as [c2 [E2 I2]].
  destruct (charAt_hotel_code_chars _ (random_index_in_range r3 A3 B3)) as [c3 [E3 I3]].
  cbn [fold_left]. rewrite E0, E1, E2, E3. cbn [String.append].
  split; [reflexivity|].
  cbn [list_ascii_of_string]. intros c [H | [H | [H | [H | []]]]]; subst c; assumption.
Qed.

Lemma hotel_code_has_four_characters_of_the_alphabet_witness :
  String.length (generateUniqueHotelCode 0 (1 # 2) (3 # 4) (9007199254740991 # 9007199254740992)) = 4%nat.
Proof.
  refine (proj1 (hotel_code_has_four_characters_of_the_alphabet
                   0 (1 # 2) (3 # 4) (9007199254740991 # 9007199254740992) _ _ _ _));
    split; unfold Qle, Qlt; simpl; lia.
Defined.

(** Draws 0, 0.5, 0.75 and the largest double below 1; at the double
    0.3333333333333333 the rounded product is 12, where the exact product
    is below 12. *)
Example generateUniqueHotelCode_example :
  generateUniqueHotelCode 0 (1 # 2) (3 # 4) (9007199254740991 # 9007199254740992)
  = "as19"
  /\ is_double (6004799503160661 # 18014398509481984) = true
  /\ js_mul (6004799503160661 # 18014398509481984) (inject_Z 36) = 12 # 1
  /\ Qfloor ((6004799503160661 # 18014398509481984) * inject_Z 36) = 11
  /\ generateUniqueHotelCode (6004799503160661 # 18014398509481984)
                             (6004799503160661 # 18014398509481984)
                             (6004799503160661 # 18014398509481984)
                             (6004799503160661 # 18014398509481984)
     = "mmmm".
Proof. repeat split; vm_compute; reflexivity. Qed.

Lemma createHotel_cases
  (db : Db) (user newId : Id) (r0 r1 r2 r3 : Q) (body : CreateHotelBody) :
  (createHotel db user newId r0 r1 r2 r3 body = (failed_to_create_hotel, db)
   /\ (user_exists user db = false
       \/ existsb (fun h => String.eqb (hotelCode h) (generateUniqueHotelCode r0 r1 r2 r3))
                  (hotels db) = true))
  \/ (createHotel db user newId r0 r1 r2 r3 body
      = (Json 201 (mkHotel newId (hbody_name body)
                           (generateUniqueHotelCode r0 r1 r2 r3) user []),
         mkDb (users db)
              (hotels db ++ [mkHotel newId (hbody_name body)
                                     (generateUniqueHotelCode r0 r1 r2 r3) user []])
              (rooms db) (bookings db))
      /\ user_exists user db = true
      /\ existsb (fun h => String.eqb (hotelCode h) (generateUniqueHotelCode r0 r1 r2 r3))
                 (hotels db) = false).
Proof.
  unfold createHotel, hotel_create. simpl ownerId. simpl hotelCode.
  destruct (user_exists user db); [|left; split; [reflexivity | auto]].
  destruct (existsb _ (hotels db)); [left; split; [reflexivity | auto]|].
  right. repeat split.
Qed.

Lemma existsb_hotel_code (code : string) (l : list Hotel) :
  existsb (fun h => String.eqb (hotelCode h) code) l = true <->
  exists h, In h l /\ hotelCode h = code.
Proof.
  rewrite existsb_exists. split; intros [h [Hin H]]; exists h; split; auto;
    now apply String.eqb_eq.
Qed.

(** X16. POST /api/hotels makes the caller the owner of the new hotel,
    with no managers, and touches nothing else. The code is not checked
    against the stored ones: when a stored hotel already has the code drawn,
    the request is answered 400 "Failed to create hotel" and nothing is
    written, so stored codes stay pairwise distinct and, after a creation
    that succeeded, another one with the same four draws always fails. *)
Theorem createHotel_outcomes
  (db : Db) (user newId : Id) (r0 r1 r2 r3 : Q) (body : CreateHotelBody) :
  users (snd (createHotel db user newId r0 r1 r2 r3 body)) = users db
  /\ rooms (snd (createHotel db user newId r0 r1 r2 r3 body)) = rooms db
  /\ bookings (snd (createHotel db user newId r0 r1 r2 r3 body)) = bookings db
  /\ (user_exists user db = true ->
      (forall h, In h (hotels db) -> hotelCode h <> generateUniqueHotelCode r0 r1 r2 r3) ->
      createHotel db user newId r0 r1 r2 r3 body
      = (Json 201 (mkHotel newId (hbody_name body)
                           (generateUniqueHotelCode r0 r1 r2 r3) user []),
         mkDb (users db)
              (hotels db ++ [mkHotel newId (hbody_name body)
                                     (generateUniqueHotelCode r0 r1 r2 r3) user []])
              (rooms db) (bookings db)))
  /\ ((exists h, In h (hotels db)
                 /\ hotelCode h = generateUniqueHotelCode r0 r1 r2 r3) ->
      createHotel db user newId r0 r1 r2 r3 body = (failed_to_create_hotel, db))
  /\ (hotel_codes_distinct db ->
      hotel_codes_distinct (snd (createHotel db user newId r0 r1 r2 r3 body)))
  /\ (forall x db1 user' newId' body',
        createHotel db user newId r0 r1 r2 r3 body = (Json 201 x, db1) ->
        createHotel db1 user' newId' r0 r1 r2 r3 body' = (failed_to_create_hotel, db1)).
Proof.
  set (code := generateUniqueHotelCode r0 r1 r2 r3).
  destruct (createHotel_cases db user newId r0 r1 r2 r3 body)
    as [[Hc Hwhy] | [Hc [Hu Hx]]]; fold code in Hc |- *; rewrite Hc; simpl.
  - repeat split; auto.
    + intros Hu Hfree. destruct Hwhy as [Hn | Hex]; [congruence|].
      apply existsb_hotel_code in Hex. destruct Hex as [h [Hin He]].
      exfalso. exact (Hfree h Hin He).
    + intros x db1 user' newId' body' H. discriminate.
  - repeat split.
    + intros Hex. apply existsb_hotel_code in Hex. fold code in Hx. congruence.
    + intros Hnd. unfold hotel_codes_distinct in *. simpl. rewrite map_app. simpl.
      apply NoDup_snoc; [exact Hnd|].
      apply (existsb_false_not_in hotelCode String.eqb String.eqb_eq). exact Hx.
    + intros x db1 user' newId' body' H. inversion H. subst x db1. clear H.
      destruct (createHotel_cases
                  (mkDb (users db)
                        (hotels db ++ [mkHotel newId (hbody_name body) code user []])
                        (rooms db) (bookings db))
                  user' newId' r0 r1 r2 r3 body')
        as [[Hc' _] | [_ [_ Hx']]]; [exact Hc'|].
      exfalso. fold code in Hx'. simpl in Hx'.
      rewrite existsb_app in Hx'. simpl in Hx'.
      rewrite String.eqb_refl in Hx'. rewrite orb_true_r in Hx'. discriminate.
Qed.

Lemma createHotel_outcomes_witness :
  createHotel (snd (createHotel (Sample.db_with []) Sample.guest "hotel-2"
                                (3 # 8) (11 # 16) (1 # 16) 0
                                (mkHotelBody "Beach Resort" "Miami" "By the sea" None)))
              Sample.owner "hotel-3" (3 # 8) (11 # 16) (1 # 16) 0
              (mkHotelBody "City Inn" "Miami" "In town" None)
  = (failed_to_create_hotel,
     snd (createHotel (Sample.db_with []) Sample.guest "hotel-2"
                      (3 # 8) (11 # 16) (1 # 16) 0
                      (mkHotelBody "Beach Resort" "Miami" "By the sea" None))).
Proof.
  refine (proj2 (proj2 (proj2 (proj2 (proj2 (proj2
           (createHotel_outcomes (Sample.db_with []) Sample.guest "hotel-2"
              (3 # 8) (11 # 16) (1 # 16) 0
              (mkHotelBody "Beach Resort" "Miami" "By the sea" None)))))))
           (mkHotel "hotel-2" "Beach Resort" "nyca" Sample.guest []) _
           Sample.owner "hotel-3" (mkHotelBody "City Inn" "Miami" "In town" None) _).
  vm_compute. reflexivity.
Defined.

(** ** Pages of hotels *)

Lemma firstn_then_next {A : Type} (a b : nat) :
  forall l : list A, firstn a l ++ firstn b (skipn a l) = firstn (a + b) l.
Proof.
  induction a as [|a IH]; intros l; simpl; [reflexivity|].
  destruct l as [|x l]; simpl.
  - now rewrite firstn_nil.
  - now rewrite IH.
Qed.

Lemma chunks_cover_prefix {A : Type} (l : list A) (n k : nat) :
  List.concat (map (fun i => firstn n (skipn (i * n) l)) (seq 0 k)) = firstn (k * n) l.
Proof.
  induction k as [|k IH]; [reflexivity|].
  rewrite seq_S, map_app, concat_app, IH. simpl.
  rewrite app_nil_r, firstn_then_next. f_equal. lia.
Qed.

Lemma store_by_id_laws : HotelStoreLaws store_by_id.
Proof.
  constructor; cbn [hotel_order hotel_findMany store_by_id].
  - intros l. symmetry. apply HotelSort.Permuted_sort.
  - intros skip take db H.
    replace (skip <? 0) with true by (symmetry; apply Z.ltb_lt; lia). reflexivity.
  - intros skip take db Hs Ht.
    replace (skip <? 0) with false by (symmetry; apply Z.ltb_ge; lia).
    replace (take <? 0) with false by (symmetry; apply Z.ltb_ge; lia).
    reflexivity.
Qed.

Lemma getHotels_page (St : HotelStore) (L : HotelStoreLaws St) (db : Db) (p l : Z) :
  1 <= p -> 1 <= l -> p * l < 2 ^ 31 ->
  getHotels db (Some p) (Some l)
  = Json 200 (firstn (Z.to_nat l)
                     (skipn (Z.to_nat ((p - 1) * l)) (hotel_order (hotels db))),
              mkPagination (Z.of_nat (List.length (hotels db)))
                           (ceil_div (Z.of_nat (List.length (hotels db))) l) p l).
Proof.
  intros Hp Hl Hb. unfold getHotels, Number_or.
  replace (p =? 0) with false by (symmetry; apply Z.eqb_neq; lia).
  replace (l =? 0) with false by (symmetry; apply Z.eqb_neq; lia).
  rewrite findMany_page by nia.
  reflexivity.
Qed.

(** X17. For a page number and a page size of at least 1, within the
    store's integers ([page * limit < 2^31]), GET /api/hotels returns the
    hotels at positions [(page - 1) * limit] to [page * limit - 1] of the
    table in the store's paging order, at most [limit] of them; [pages] is
    the least number of pages that holds them all; a page beyond [pages] is
    empty; and the pages 1 to [pages], one after another, are the table in
    paging order, so that every hotel is on exactly one page. *)
Theorem getHotels_pages_partition_the_hotels
  (St : HotelStore) (L : HotelStoreLaws St) (db : Db) (page limit : Z) :
  1 <= page -> 1 <= limit -> page * limit < 2 ^ 31 ->
  getHotels db (Some page) (Some limit)
  = Json 200 (firstn (Z.to_nat limit)
                     (skipn (Z.to_nat ((page - 1) * limit)) (hotel_order (hotels db))),
              mkPagination (Z.of_nat (List.length (hotels db)))
                           (ceil_div (Z.of_nat (List.length (hotels db))) limit)
                           page limit)
  /\ Z.of_nat (List.length (page_items (getHotels db (Some page) (Some limit)))) <= limit
  /\ (ceil_div (Z.of_nat (List.length (hotels db))) limit - 1) * limit
     < Z.of_nat (List.length (hotels db))
     <= ceil_div (Z.of_nat (List.length (hotels db))) limit * limit
  /\ (ceil_div (Z.of_nat (List.length (hotels db))) limit < page ->
      page_items (getHotels db (Some page) (Some limit)) = [])
  /\ (Z.of_nat (List.length (hotels db)) + limit < 2 ^ 31 ->
      List.concat
        (map (fun k => page_items (getHotels db (Some (Z.of_nat k)) (Some limit)))
             (seq 1 (Z.to_nat (ceil_div (Z.of_nat (List.length (hotels db))) limit))))
      = hotel_order (hotels db)
      /\ Permutation
           (List.concat
              (map (fun k => page_items (getHotels db (Some (Z.of_nat k)) (Some limit)))
                   (seq 1 (Z.to_nat (ceil_div (Z.of_nat (List.length (hotels db)))
                                              limit)))))
           (hotels db)).
Proof.
  intros Hp Hl Hb.
  pose proof (ceil_div_spec (Z.of_nat (List.length (hotels db))) limit ltac:(lia)) as Hs.
  pose proof (Permutation_length (hotel_order_permutation (hotels db))) as Hlen.
  set (pages := ceil_div (Z.of_nat (List.length (hotels db))) limit) in *.
  rewrite (getHotels_page St L db page limit Hp Hl Hb). simpl page_items.
  split; [reflexivity|]. split.
  { rewrite length_firstn. lia. }
  split; [exact Hs|]. split.
  { intros Hbeyond. rewrite skipn_all2; [now rewrite firstn_nil|]. rewrite Hlen. nia. }
  intros Hfit.
  assert (Hpages : 0 <= pages) by nia.
  assert (Hall : List.concat
            (map (fun k => page_items (getHotels db (Some (Z.of_nat k)) (Some limit)))
                 (seq 1 (Z.to_nat pages)))
          = hotel_order (hotels db)).
  { rewrite <- seq_shift, map_map.
    erewrite map_ext_in.
    - rewrite (chunks_cover_prefix (hotel_order (hotels db))
                 (Z.to_nat limit) (Z.to_nat pages)).
      apply firstn_all2. rewrite Hlen. nia.
    - intros i Hi. apply in_seq in Hi.
      rewrite (getHotels_page St L db (Z.of_nat (S i)) limit ltac:(lia) Hl ltac:(nia)).
      cbn [page_items]. f_equal. f_equal.
      replace (Z.of_nat (S i) - 1) with (Z.of_nat i) by lia.
      rewrite Z2Nat.inj_mul by lia. now rewrite Nat2Z.id. }
  split; [exact Hall|]. rewrite Hall. apply hotel_order_permutation.
Qed.

(** On the store that pages by id, the second page of five of a table of
    one hotel is empty. *)
Lemma getHotels_pages_partition_the_hotels_witness :
  page_items (@getHotels store_by_id (Sample.db_with []) (Some 2) (Some 5)) = [].
Proof.
  refine (proj1 (proj2 (proj2 (proj2
           (getHotels_pages_partition_the_hotels store_by_id store_by_id_laws
              (Sample.db_with []) 2 5 _ _ _)))) _);
    try (apply Z.ltb_lt; reflexivity); try (apply Z.leb_le; reflexivity).
Defined.

(** Three hotels whose ids are not in the order of insertion, paged by
    two: the pages follow the ids. *)
Example getHotels_pages_by_id :
  map (fun k =>
         map hotel_name
             (page_items
                (@getHotels store_by_id
                   (mkDb [Sample.owner]
                         [mkHotel "c0" "Grand Hotel" "aaaa" Sample.owner [];
                          mkHotel "a0" "Hotel 2" "bbbb" Sample.owner [];
                          mkHotel "b0" "Hotel 3" "cccc" Sample.owner []] [] [])
                   (Some k) (Some 2))))
      [1; 2; 3]
  = [["Hotel 2"; "Hotel 3"]; ["Grand Hotel"]; []].
Proof. vm_compute. reflexivity. Qed.

(** X18. Query defaults of GET /api/hotels: an absent or non-numeric
    page, and the page 0, mean page 1; an absent or non-numeric limit, and
    the limit 0, mean 10, so the number of pages is never computed by a
    division by zero, and a request without parameters gets the first ten
    hotels of the store's paging order. A negative page with a positive
    limit asks the store to skip a negative number of rows and is answered
    500. *)
Theorem getHotels_defaults_and_refusals
  (St : HotelStore) (L : HotelStoreLaws St) (db : Db) (page limit : option Z) :
  getHotels db None limit = getHotels db (Some 1) limit
  /\ getHotels db (Some 0) limit = getHotels db (Some 1) limit
  /\ getHotels db page None = getHotels db page (Some 10)
  /\ getHotels db page (Some 0) = getHotels db page (Some 10)
  /\ getHotels db None None
     = Json 200 (firstn 10 (hotel_order (hotels db)),
                 mkPagination (Z.of_nat (List.length (hotels db)))
                              (ceil_div (Z.of_nat (List.length (hotels db))) 10)
                              1 10)
  /\ (forall p l, p < 0 -> 0 < l ->
        getHotels db (Some p) (Some l) = Error 500 "Failed to fetch hotels").
Proof.
  repeat split.
  - unfold getHotels, Number_or. rewrite findMany_page by (split; reflexivity || lia).
    reflexivity.
  - intros p l Hp Hl. unfold getHotels, Number_or.
    replace (p =? 0) with false by (symmetry; apply Z.eqb_neq; lia).
    replace (l =? 0) with false by (symmetry; apply Z.eqb_neq; lia).
    rewrite findMany_negative_skip by nia.
    reflexivity.
Qed.

Lemma getHotels_defaults_and_refusals_witness :
  @getHotels store_by_id (Sample.db_with []) (Some (-1)) (Some 10)
  = Error 500 "Failed to fetch hotels".
Proof.
  refine (proj2 (proj2 (proj2 (proj2 (proj2
           (getHotels_defaults_and_refusals store_by_id store_by_id_laws
              (Sample.db_with []) None None)))))
           (-1) 10 _ _); apply Z.ltb_lt; reflexivity.
Defined.

(* ===================================================================== *)
(** * Properties of [StorageService] and of the upload filter *)
(* ===================================================================== *)

Lemma bucket_get_put_same (key : string) (o : R2Object) (b : Bucket) :
  bucket_get key (bucket_put key o b) = Some o.
Proof. unfold bucket_get, bucket_put. simpl. now rewrite String.eqb_refl. Qed.

Lemma bucket_get_delete_other (key k : string) (b : Bucket) :
  k <> key -> bucket_get k (bucket_delete key b) = bucket_get k b.
Proof.
  intros Hne. unfold bucket_get, bucket_delete. f_equal.
  induction b as [|[k0 o0] b IH]; simpl; [reflexivity|].
  destruct (String.eqb k0 key) eqn:E; simpl.
  - apply String.eqb_eq in E. subst k0.
    replace (String.eqb key k) with false; [exact IH|].
    symmetry. apply String.eqb_neq. congruence.
  - destruct (String.eqb k0 k); [reflexivity | exact IH].
Qed.

Lemma bucket_get_delete_same (key : string) (b : Bucket) :
  bucket_get key (bucket_delete key b) = None.
Proof.
  unfold bucket_get, bucket_delete.
  induction b as [|[k0 o0] b IH]; simpl; [reflexivity|].
  destruct (String.eqb k0 key) eqn:E; simpl; [exact IH|].
  rewrite E. exact IH.
Qed.

Lemma bucket_get_put_other (key k : string) (o : R2Object) (b : Bucket) :
  k <> key -> bucket_get k (bucket_put key o b) = bucket_get k b.
Proof.
  intros Hne. unfold bucket_put.
  transitivity (bucket_get k (bucket_delete key b)).
  - unfold bucket_get at 1. simpl.
    replace (String.eqb key k) with false; [reflexivity|].
    symmetry. apply String.eqb_neq. congruence.
  - now apply bucket_get_delete_other.
Qed.

Lemma includes_In (s : string) (l : list string) :
  includes s l = true <-> In s l.
Proof.
  unfold includes. rewrite existsb_exists. split.
  - intros [x [Hin He]]. apply String.eqb_eq in He. now subst x.
  - intros Hin. exists s. split; [exact Hin | apply String.eqb_refl].
Qed.

(** X19. [uploadFile] validates before it stores: a type outside the
    four allowed ones throws "Invalid file type" whatever the size, an
    allowed type with more than 5 MiB throws "File size exceeds limit", and
    in both cases the bucket and the random generator are untouched. A file
    that the upload filter accepts and that has at most 5242880 bytes is
    always stored. *)
Theorem uploadFile_validates_type_then_size
  (file : MulterFile) (prefix : string) (now : Z) (g : Rng) (b : Bucket) :
  (~ In (mimetype file) ["image/jpeg"; "image/png"; "image/jpg"; "application/pdf"] ->
   StorageService.uploadFile file prefix now g b = (Thrown "Invalid file type", g, b)
   /\ fileFilter file = Thrown "Invalid file type")
  /\ (In (mimetype file) ["image/jpeg"; "image/png"; "image/jpg"; "application/pdf"] ->
      5242880 < size file ->
      StorageService.uploadFile file prefix now g b
      = (Thrown "File size exceeds limit", g, b))
  /\ (fileFilter file = Returned true -> size file <= 5242880 ->
      exists key g',
        StorageService.uploadFile file prefix now g b
        = (Returned key, g',
           bucket_put key (mkObject (buffer file) (mimetype file)) b)).
Proof.
  change ["image/jpeg"; "image/png"; "image/jpg"; "application/pdf"]
    with ALLOWED_FILE_TYPES.
  unfold StorageService.uploadFile, fileFilter. repeat split.
  - destruct (includes (mimetype file) ALLOWED_FILE_TYPES) eqn:E; [|reflexivity].
    apply includes_In in E. contradiction.
  - destruct (includes (mimetype file) ALLOWED_FILE_TYPES) eqn:E; [|reflexivity].
    apply includes_In in E. contradiction.
  - intros Hin Hbig. apply includes_In in Hin. rewrite Hin. simpl negb. cbv iota.
    replace (size file >? MAX_FILE_SIZE) with true; [reflexivity|].
    symmetry. apply Z.gtb_lt. unfold MAX_FILE_SIZE. lia.
  - intros Hf Hsmall.
    destruct (includes (mimetype file) ALLOWED_FILE_TYPES);
      [|simpl in Hf; discriminate].
    simpl negb. cbv iota.
    replace (size file >? MAX_FILE_SIZE) with false.
    + destruct (StorageService.generateKey prefix now g) as [key g'].
      exists key, g'. reflexivity.
    + symmetry. rewrite Z.gtb_ltb. apply Z.ltb_ge. unfold MAX_FILE_SIZE. lia.
Qed.

Lemma uploadFile_validates_type_then_size_witness :
  StorageService.uploadFile (mkFile "text/html" 10 [x01]) "aadhar" 1738418400000
                            ToyCrypto.rng0 []
  = (Thrown "Invalid file type", ToyCrypto.rng0, []).
Proof.
  refine (proj1 (proj1 (uploadFile_validates_type_then_size
                          (mkFile "text/html" 10 [x01]) "aadhar" 1738418400000
                          ToyCrypto.rng0 []) _)).
  simpl. intros [H | [H | [H | [H | []]]]]; discriminate.
Defined.

Lemma string_length_append (a b : string) :
  String.length (String.append a b) = (String.length a + String.length b)%nat.
Proof. induction a as [|c a IH]; simpl; [reflexivity | now rewrite IH]. Qed.

Lemma hex_of_bytes_length (bs : list Z) :
  String.length (hex_of_bytes bs) = (2 * List.length bs)%nat.
Proof. induction bs as [|x bs IH]; simpl; [reflexivity | rewrite IH; lia]. Qed.

Lemma hex_of_buffer_length (buf : Buffer) :
  String.length (hex_of_buffer buf) = (2 * List.length buf)%nat.
Proof. unfold hex_of_buffer. now rewrite hex_of_bytes_length, length_map. Qed.

(** X20. A successful upload returns the key
    [prefix/<Date.now()>-<16 hexadecimal digits>] built from eight random
    bytes, stores the file's bytes and type under that key, where a lookup
    finds them, replaces nothing stored under another key, and passed both
    checks. *)
Theorem uploadFile_stores_under_the_returned_key
  (file : MulterFile) (prefix : string) (now : Z) (g g' : Rng) (b b' : Bucket)
  (key : string) :
  StorageService.uploadFile file prefix now g b = (Returned key, g', b') ->
  key = String.append prefix
          (String.append "/"
             (String.append (Number_toString now)
                (String.append "-" (hex_of_buffer (fst (randomBytes 8 g))))))
  /\ String.length key
     = (String.length prefix + 1 + String.length (Number_toString now) + 1 + 16)%nat
  /\ bucket_get key b' = Some (mkObject (buffer file) (mimetype file))
  /\ (forall k, k <> key -> bucket_get k b' = bucket_get k b)
  /\ cursor g' = (cursor g + 8)%nat
  /\ In (mimetype file) ALLOWED_FILE_TYPES
  /\ size file <= 5242880.
Proof.
  unfold StorageService.uploadFile.
  destruct (includes (mimetype file) ALLOWED_FILE_TYPES) eqn:Et; simpl negb; cbv iota;
    [|discriminate].
  destruct (size file >? MAX_FILE_SIZE) eqn:Es; [discriminate|].
  unfold StorageService.generateKey.
  pose proof (randomBytes_length 8 g) as Hlen.
  destruct (randomBytes 8 g) as [random g1] eqn:Er. simpl in Hlen.
  intros H. inversion H. subst key g' b'. clear H.
  assert (Hg : cursor g1 = (cursor g + 8)%nat).
  { unfold randomBytes in Er. inversion Er. reflexivity. }
  simpl fst. repeat split.
  - repeat (rewrite string_length_append || (progress cbn [String.length])).
    rewrite hex_of_buffer_length, Hlen. lia.
  - apply bucket_get_put_same.
  - intros k Hk. now apply bucket_get_put_other.
  - exact Hg.
  - now apply includes_In.
  - rewrite Z.gtb_ltb in Es. apply Z.ltb_ge in Es. unfold MAX_FILE_SIZE in Es. lia.
Qed.

Lemma uploadFile_stores_under_the_returned_key_witness :
  bucket_get "aadhar/1738418400000-0001020304050607"
             (snd (StorageService.uploadFile (mkFile "application/pdf" 3 [x01; x02; x03])
                                             "aadhar" 1738418400000 ToyCrypto.rng0 []))
  = Some (mkObject [x01; x02; x03] "application/pdf").
Proof.
  refine (proj1 (proj2 (proj2
           (uploadFile_stores_under_the_returned_key
              (mkFile "application/pdf" 3 [x01; x02; x03]) "aadhar" 1738418400000
              ToyCrypto.rng0 _ [] _ "aadhar/1738418400000-0001020304050607" _)))).
  vm_compute. reflexivity.
Defined.

(** X21. [deleteFile] removes the object of the key and nothing else: a
    lookup of the key finds nothing afterwards, every other key keeps its
    object, and deleting a key that is not stored leaves every lookup as it
    was. In particular an upload followed by the deletion of the returned
    key leaves every other key of the bucket as before the upload. *)
Theorem deleteFile_removes_only_the_key (key : string) (b : Bucket) :
  bucket_get key (StorageService.deleteFile key b) = None
  /\ (forall k, k <> key ->
        bucket_get k (StorageService.deleteFile key b) = bucket_get k b)
  /\ (bucket_get key b = None ->
      forall k, bucket_get k (StorageService.deleteFile key b) = bucket_get k b)
  /\ (forall file prefix now g g' b',
        StorageService.uploadFile file prefix now g b = (Returned key, g', b') ->
        bucket_get key (StorageService.deleteFile key b') = None
        /\ forall k, k <> key ->
             bucket_get k (StorageService.deleteFile key b') = bucket_get k b).
Proof.
  unfold StorageService.deleteFile. split; [apply bucket_get_delete_same|].
  split; [intros k Hk; now apply bucket_get_delete_other|]. split.
  - intros Hnone k. destruct (String.eqb k key) eqn:E.
    + apply String.eqb_eq in E. subst k. now rewrite bucket_get_delete_same.
    + apply String.eqb_neq in E. now apply bucket_get_delete_other.
  - intros file prefix now g g' b' Hup. split; [apply bucket_get_delete_same|].
    intros k Hk. rewrite bucket_get_delete_other by exact Hk.
    revert Hup. unfold StorageService.uploadFile.
    destruct (negb _); [discriminate|].
    destruct (size file >? MAX_FILE_SIZE); [discriminate|].
    destruct (StorageService.generateKey prefix now g) as [key0 g0].
    intros H. inversion H. subst. now apply bucket_get_put_other.
Qed.

Lemma deleteFile_removes_only_the_key_witness :
  bucket_get "b" (StorageService.deleteFile "a" [("a", mkObject [x01] "image/png");
                                                 ("b", mkObject [x02] "image/png")])
  = Some (mkObject [x02] "image/png").
Proof.
  refine (proj1 (proj2 (deleteFile_removes_only_the_key "a"
                          [("a", mkObject [x01] "image/png");
                           ("b", mkObject [x02] "image/png")])) "b" _).
  discriminate.
Defined.

(* ===================================================================== *)
(** * Further properties of [EncryptionService] *)
(* ===================================================================== *)

Lemma byte_of_hex_pair_of_byte (x : byte) :
  byte_of_hex_pair (hex_digit (Z.shiftr (Z.of_N (Byte.to_N x)) 4))
                   (hex_digit (Z.land (Z.of_N (Byte.to_N x)) 15)) = Some x.
Proof. destruct x; vm_compute; reflexivity. Qed.

Lemma hex_digits_of_byte (x : byte) :
  is_hex_char (hex_digit (Z.shiftr (Z.of_N (Byte.to_N x)) 4)) = true
  /\ is_hex_char (hex_digit (Z.land (Z.of_N (Byte.to_N x)) 15)) = true.
Proof. destruct x; vm_compute; split; reflexivity. Qed.

Lemma buffer_of_hex_of_buffer (x : Buffer) :
  buffer_of_hex (hex_of_buffer x) = Some x.
Proof.
  induction x as [|y x IH]; [reflexivity|].
  unfold hex_of_buffer in *. cbn [map hex_of_bytes buffer_of_hex].
  now rewrite byte_of_hex_pair_of_byte, IH.
Qed.

Lemma hex_of_buffer_chars (a : Buffer) (c : ascii) :
  In c (list_ascii_of_string (hex_of_buffer a)) -> is_hex_char c = true.
Proof.
  induction a as [|y a IH]; [intros []|].
  unfold hex_of_buffer in *. cbn [map hex_of_bytes list_ascii_of_string].
  destruct (hex_digits_of_byte y) as [H1 H2].
  intros [Hc | [Hc | Hc]]; [subst c; exact H1 | subst c; exact H2 | now apply IH].
Qed.

Lemma hex_of_buffer_injective (a b : Buffer) :
  hex_of_buffer a = hex_of_buffer b -> a = b.
Proof.
  intros Hab. pose proof (buffer_of_hex_of_buffer a) as Ha.
  rewrite Hab, buffer_of_hex_of_buffer in Ha. congruence.
Qed.

Lemma encrypt_unfolded (C : NodeCrypto) (g : Rng) (data : Buffer) :
  EncryptionService.encrypt g data
  = (EncryptionService.mkEncrypted
       (map (fun i => entropy g (cursor g + i)%nat) (seq 0 64)
        ++ map (fun i => entropy g (cursor g + 64 + i)%nat) (seq 0 16)
        ++ snd (cipher "aes-256-gcm"
                  (EncryptionService.generateKey
                     (hex_of_buffer
                        (map (fun i => entropy g (cursor g + 64 + 16 + i)%nat) (seq 0 32)))
                     (map (fun i => entropy g (cursor g + i)%nat) (seq 0 64)))
                  (map (fun i => entropy g (cursor g + 64 + i)%nat) (seq 0 16)) 16 data)
        ++ fst (cipher "aes-256-gcm"
                  (EncryptionService.generateKey
                     (hex_of_buffer
                        (map (fun i => entropy g (cursor g + 64 + 16 + i)%nat) (seq 0 32)))
                     (map (fun i => entropy g (cursor g + i)%nat) (seq 0 64)))
                  (map (fun i => entropy g (cursor g + 64 + i)%nat) (seq 0 16)) 16 data))
       (hex_of_buffer (map (fun i => entropy g (cursor g + 64 + 16 + i)%nat) (seq 0 32))),
     mkRng (entropy g) (cursor g + 64 + 16 + 32)%nat).
Proof.
  unfold EncryptionService.encrypt, randomBytes.
  unfold EncryptionService.saltLength, EncryptionService.ivLength,
    EncryptionService.tagLength, EncryptionService.algorithm.
  cbn [entropy cursor].
  destruct (cipher "aes-256-gcm" _ _ 16 data) as [ct tag]. reflexivity.
Qed.

(** X22. The key that [encrypt] returns carries all of the 32 random
    bytes it was made from: reading its hexadecimal digits back two by two
    gives those bytes, so two calls that return the same key drew the same
    32 bytes. *)
Theorem encryption_key_determines_its_random_bytes
  (C : NodeCrypto) (g1 g2 : Rng) (d1 d2 : Buffer) :
  buffer_of_hex (EncryptionService.encryptionKey (fst (EncryptionService.encrypt g1 d1)))
  = Some (map (fun i => entropy g1 (cursor g1 + 64 + 16 + i)%nat) (seq 0 32))
  /\ (EncryptionService.encryptionKey (fst (EncryptionService.encrypt g1 d1))
      = EncryptionService.encryptionKey (fst (EncryptionService.encrypt g2 d2)) ->
      map (fun i => entropy g1 (cursor g1 + 64 + 16 + i)%nat) (seq 0 32)
      = map (fun i => entropy g2 (cursor g2 + 64 + 16 + i)%nat) (seq 0 32)).
Proof.
  rewrite (encrypt_unfolded C g1 d1), (encrypt_unfolded C g2 d2).
  cbn [fst EncryptionService.encryptionKey].
  split; [apply buffer_of_hex_of_buffer | apply hex_of_buffer_injective].
Qed.

Lemma encryption_key_determines_its_random_bytes_witness :
  map (fun i => entropy ToyCrypto.rng0 (cursor ToyCrypto.rng0 + 64 + 16 + i)%nat) (seq 0 32)
  = map (fun i => entropy ToyCrypto.rng0 (cursor ToyCrypto.rng0 + 64 + 16 + i)%nat)
        (seq 0 32).
Proof.
  exact (proj2 (encryption_key_determines_its_random_bytes ToyCrypto.toy
                  ToyCrypto.rng0 ToyCrypto.rng0 [x01] [x02]) eq_refl).
Defined.

(** X23. What [encrypt] hands back and what it draws: the key is a
    string of 64 hexadecimal digits, the hexadecimal form of the 32 bytes
    read last; the blob has 96 bytes of salt, iv and tag in front of the
    ciphertext and starts with the 64 salt bytes and the 16 iv bytes read
    from the generator; each call reads 112 bytes, 64 for the salt, 16 for
    the iv and 32 for the key, in that order, and leaves the generator
    behind them. *)
Theorem encrypt_output_shape
  (C : NodeCrypto) (L : NodeCryptoLaws C) (g : Rng) (data : Buffer) :
  String.length (EncryptionService.encryptionKey (fst (EncryptionService.encrypt g data)))
  = 64%nat
  /\ (forall c,
        In c (list_ascii_of_string
                (EncryptionService.encryptionKey (fst (EncryptionService.encrypt g data)))) ->
        is_hex_char c = true)
  /\ EncryptionService.encryptionKey (fst (EncryptionService.encrypt g data))
     = hex_of_buffer (map (fun i => entropy g (cursor g + 80 + i)%nat) (seq 0 32))
  /\ firstn 64 (EncryptionService.encryptedData (fst (EncryptionService.encrypt g data)))
     = map (fun i => entropy g (cursor g + i)%nat) (seq 0 64)
  /\ firstn 16 (skipn 64 (EncryptionService.encryptedData
                            (fst (EncryptionService.encrypt g data))))
     = map (fun i => entropy g (cursor g + 64 + i)%nat) (seq 0 16)
  /\ (96 <= List.length (EncryptionService.encryptedData
                           (fst (EncryptionService.encrypt g data))))%nat
  /\ cursor (snd (EncryptionService.encrypt g data)) = (cursor g + 112)%nat
  /\ entropy (snd (EncryptionService.encrypt g data)) = entropy g.
Proof.
  rewrite (encrypt_unfolded C g data).
  cbn [fst snd EncryptionService.encryptionKey EncryptionService.encryptedData
       entropy cursor].
  set (salt := map (fun i => entropy g (cursor g + i)%nat) (seq 0 64)).
  set (iv := map (fun i => entropy g (cursor g + 64 + i)%nat) (seq 0 16)).
  set (pw := map (fun i => entropy g (cursor g + 64 + 16 + i)%nat) (seq 0 32)).
  assert (Hs : List.length salt = 64%nat) by (unfold salt; now rewrite length_map, length_seq).
  assert (Hi : List.length iv = 16%nat) by (unfold iv; now rewrite length_map, length_seq).
  assert (Hp : List.length pw = 32%nat) by (unfold pw; now rewrite length_map, length_seq).
  pose proof (getAuthTag_length "aes-256-gcm"
                (EncryptionService.generateKey (hex_of_buffer pw) salt) iv 16 data) as Ht.
  set (tag := snd (cipher "aes-256-gcm"
                     (EncryptionService.generateKey (hex_of_buffer pw) salt) iv 16 data)) in *.
  split; [rewrite hex_of_buffer_length, Hp; reflexivity|].
  split; [apply hex_of_buffer_chars|].
  split; [unfold pw; f_equal; apply map_ext; intros i; f_equal; lia|].
  split; [now apply firstn_exact|].
  split; [rewrite (skipn_exact salt _ 64 Hs); now apply firstn_exact|].
  split; [rewrite !length_app, Hs, Hi, Ht; lia|].
  split; [lia | reflexivity].
Qed.

Lemma encrypt_output_shape_witness :
  cursor (snd (@EncryptionService.encrypt ToyCrypto.toy ToyCrypto.rng0 [x01; x02; x03]))
  = 112%nat.
Proof.
  exact (proj1 (proj2 (proj2 (proj2 (proj2 (proj2 (proj2
           (encrypt_output_shape ToyCrypto.toy toy_laws ToyCrypto.rng0
              [x01; x02; x03])))))))).
Defined.

(* ===================================================================== *)
(** * Requests in flight: what every interleaving keeps *)
(* ===================================================================== *)

Lemma grows_by_refl (db : Db) : grows_by db db [].
Proof. unfold grows_by. rewrite app_nil_r. repeat split. constructor. Qed.

Lemma grows_by_trans (db1 db2 db3 : Db) (a b : list Booking) :
  grows_by db1 db2 a -> grows_by db2 db3 b -> grows_by db1 db3 (a ++ b).
Proof.
  intros [U1 [H1 [R1 [B1 F1]]]] [U2 [H2 [R2 [B2 F2]]]]. unfold grows_by.
  repeat split; try congruence.
  - rewrite B2, B1. now rewrite app_assoc.
  - apply Forall_app. split; assumption.
Qed.

Lemma task_step_grows (t : BookingTask) (db : Db) :
  exists added,
    grows_by db (snd (task_step t db)) added
    /\ (List.length added + unfinished [fst (task_step t db)] <= unfinished [t])%nat.
Proof.
  destruct t as [u n body | u n body | u n body room | r]; simpl.
  - destruct (booking_findFirst _ db); exists []; simpl;
      (split; [apply grows_by_refl | unfold unfinished; simpl; lia]).
  - destruct (room_findUnique _ db); exists []; simpl;
      (split; [apply grows_by_refl | unfold unfinished; simpl; lia]).
  - unfold booking_create.
    destruct (user_exists _ db);
      [|exists []; simpl; split; [apply grows_by_refl | unfold unfinished; simpl; lia]].
    destruct (hotel_findUnique _ db);
      [|exists []; simpl; split; [apply grows_by_refl | unfold unfinished; simpl; lia]].
    destruct (room_findUnique _ db);
      [|exists []; simpl; split; [apply grows_by_refl | unfold unfinished; simpl; lia]].
    exists [new_booking n u body room]. simpl. split.
    + unfold grows_by. simpl. repeat split. constructor; [|constructor]. split; reflexivity.
    + unfold unfinished. simpl. lia.
  - exists []. simpl. split; [apply grows_by_refl | unfold unfinished; simpl; lia].
Qed.

Lemma unfinished_cons (t : BookingTask) (ts : list BookingTask) :
  unfinished (t :: ts) = (unfinished [t] + unfinished ts)%nat.
Proof. unfold unfinished. simpl. destruct t; simpl; reflexivity. Qed.

Lemma step_nth_grows (i : nat) :
  forall (ts : list BookingTask) (db : Db),
  exists added,
    grows_by db (snd (step_nth i ts db)) added
    /\ (List.length added + unfinished (fst (step_nth i ts db)) <= unfinished ts)%nat
    /\ List.length (fst (step_nth i ts db)) = List.length ts.
Proof.
  induction i as [|i IH]; intros ts db; destruct ts as [|t ts]; simpl.
  - exists []. split; [apply grows_by_refl|]. simpl. split; [lia | reflexivity].
  - destruct (task_step_grows t db) as [added [Hg Hc]].
    destruct (task_step t db) as [t' db']. simpl in *.
    exists added. split; [exact Hg|]. split; [|reflexivity].
    rewrite (unfinished_cons t'), (unfinished_cons t). lia.
  - exists []. split; [apply grows_by_refl|]. simpl. split; [lia | reflexivity].
  - destruct (IH ts db) as [added [Hg [Hc Hl]]].
    destruct (step_nth i ts db) as [ts' db']. simpl in *.
    exists added. split; [exact Hg|]. split; [|now rewrite Hl].
    rewrite (unfinished_cons t ts'), (unfinished_cons t ts). lia.
Qed.

(** X24. Whatever the order in which the store calls of the requests in
    flight are executed, the requests never change or delete anything: the
    users, hotels and rooms stay as they are, the bookings stored before are
    still there, unchanged and in place, and what is added after them are
    PENDING bookings, at most one for each request that sent its response
    in the meantime. *)
Theorem every_interleaving_only_appends_pending_bookings (sched : list nat) :
  forall (ts : list BookingTask) (db : Db),
  exists added,
    users (snd (run_schedule sched (ts, db))) = users db
    /\ hotels (snd (run_schedule sched (ts, db))) = hotels db
    /\ rooms (snd (run_schedule sched (ts, db))) = rooms db
    /\ bookings (snd (run_schedule sched (ts, db))) = bookings db ++ added
    /\ Forall (fun b => status b = PENDING /\ paymentStatus b = PaymentPENDING) added
    /\ (List.length added + unfinished (fst (run_schedule sched (ts, db)))
        <= unfinished ts)%nat
    /\ List.length (fst (run_schedule sched (ts, db))) = List.length ts.
Proof.
  induction sched as [|i sched IH]; intros ts db.
  - exists []. simpl. rewrite app_nil_r. repeat split; auto.
  - simpl run_schedule.
    destruct (step_nth_grows i ts db) as [a [Ha [Hc Hl]]].
    destruct (step_nth i ts db) as [ts1 db1]. simpl in Ha, Hc, Hl.
    destruct (IH ts1 db1) as [b [U [H [R [B [F [Hc' Hl']]]]]]].
    destruct (grows_by_trans db db1 (snd (run_schedule sched (ts1, db1))) a b Ha
                (conj U (conj H (conj R (conj B F))))) as [U2 [H2 [R2 [B2 F2]]]].
    exists (a ++ b). rewrite length_app.
    repeat split; auto; try lia.
Qed.
